(** * smolagents-go: the agent loop, its transcript and its tools

    A shallow embedding of [pkg/memory], [pkg/tools] and [pkg/agents] of
    smolagents-go, and the properties of the specification checked on it.

    Conventions of the embedding.
    - A Go [string] is a sequence of bytes: Rocq's [string].
    - A Go [error] is represented by its message ([err.Error()]); the
      [nil] error is [None].
    - A value of type [any] is a term of the inductive type [any] below;
      [nil] is the nil interface, every other constructor is a non-nil
      interface value.
    - Pointers to steps are addresses in an explicit heap, so that the
      aliasing between [Memory.curStep], the pointer handed to a step
      strategy and the value copies kept in [Memory.Steps] is the one of
      the Go program.
    - Wall-clock time is not modelled: [StartTimestamp] is dropped and
      [EndTimestamp] is the flag "has been stamped". *)

From Stdlib Require Import ZArith Ascii.
From stdpp Require Import base strings gmap list pretty.

Set Warnings "-register-all,-abstract-large-number,-clear-no-such-hyp".
#[local] Open Scope Z_scope.

(* ===================================================================== *)
(** * Go strings *)
(* ===================================================================== *)

Module GoString.

(** [len(s)] *)
Abbreviation len := String.length.

(** [strings.HasPrefix(s, prefix)] *)
Fixpoint HasPrefix (s prefix : string) {struct prefix} : bool :=
  match prefix with
  | EmptyString => true
  | String a prefix' =>
      match s with
      | EmptyString => false
      | String b s' => if bool_decide (a = b) then HasPrefix s' prefix' else false
      end
  end.

(** [s[n:]] for [0 <= n <= len(s)] *)
Fixpoint from (n : nat) (s : string) : string :=
  match n, s with
  | O, _ => s
  | S n', String _ s' => from n' s'
  | S _, EmptyString => EmptyString
  end.

(** [s[:n]] for [0 <= n <= len(s)] *)
Fixpoint upto (n : nat) (s : string) : string :=
  match n, s with
  | O, _ => EmptyString
  | S n', String c s' => String c (upto n' s')
  | S _, EmptyString => EmptyString
  end.

(** [s[i:j]] *)
Definition slice (i j : nat) (s : string) : string := upto (j - i) (from i s).

(** [strings.Index(s, substr)]: the byte offset of the first occurrence
    of [substr] in [s]; [None] stands for Go's [-1]. *)
Fixpoint Index (s substr : string) {struct s} : option nat :=
  if HasPrefix s substr then Some O
  else match s with
       | EmptyString => None
       | String _ s' => S <$> Index s' substr
       end.

(** [strings.Contains(s, substr)] *)
Definition Contains (s substr : string) : bool :=
  if Index s substr is Some _ then true else false.

Definition code (c : ascii) : nat := nat_of_ascii c.

(** Width in bytes of the white-space rune ([unicode.IsSpace]) that [s]
    starts with, [0] when [s] does not start with one.  The runes are
    the six ASCII ones, U+0085, U+00A0, U+1680, U+2000..U+200A, U+2028,
    U+2029, U+202F, U+205F and U+3000, in their UTF-8 encoding. *)
Definition spaceWidth (s : string) : nat :=
  match s with
  | EmptyString => 0
  | String c r =>
      if Ascii.is_space c then 1
      else match code c, r with
           | 194, String d _ =>
               if bool_decide (code d = 133 ∨ code d = 160) then 2 else 0
           | 225, String d (String e _) =>
               if bool_decide (code d = 154 ∧ code e = 128) then 3 else 0
           | 226, String d (String e _) =>
               if bool_decide
                    ((code d = 128 ∧
                      (128 ≤ code e ≤ 138 ∨ code e = 168 ∨ code e = 169
                       ∨ code e = 175))
                     ∨ (code d = 129 ∧ code e = 159))%nat
               then 3 else 0
           | 227, String d (String e _) =>
               if bool_decide (code d = 128 ∧ code e = 128) then 3 else 0
           | _, _ => 0
           end%nat
  end.

(** The same, read from the end of the string: [r] is the reversed
    string ([utf8.DecodeLastRuneInString] on the original). *)
Definition spaceWidthRev (r : string) : nat :=
  match r with
  | String c0 (String c1 (String c2 _)) =>
      if Nat.eqb (spaceWidth (String c0 EmptyString)) 1 then 1%nat
      else if Nat.eqb (spaceWidth (String c1 (String c0 EmptyString))) 2
           then 2%nat
           else spaceWidth (String c2 (String c1 (String c0 EmptyString)))
  | String c0 (String c1 EmptyString) =>
      if Nat.eqb (spaceWidth (String c0 EmptyString)) 1 then 1%nat
      else spaceWidth (String c1 (String c0 EmptyString))
  | String c0 EmptyString => spaceWidth (String c0 EmptyString)
  | EmptyString => 0%nat
  end.

Fixpoint trimWith (width : string → nat) (fuel : nat) (s : string) : string :=
  match fuel with
  | O => s
  | S fuel' =>
      match width s with
      | O => s
      | w => trimWith width fuel' (from w s)
      end
  end.

Definition TrimLeftSpace (s : string) : string :=
  trimWith spaceWidth (len s) s.

Definition TrimRightSpace (s : string) : string :=
  String.rev (trimWith spaceWidthRev (len s) (String.rev s)).

(** [strings.TrimSpace(s)] *)
Definition TrimSpace (s : string) : string :=
  TrimRightSpace (TrimLeftSpace s).

(** The double quote, and [s] between double quotes. *)
Definition dq : ascii := "034"%char.
Definition quoted (s : string) : string := String dq (s +:+ String dq EmptyString).

(** The line feed. *)
Definition lf : ascii := "010"%char.
Definition nl : string := String lf EmptyString.

End GoString.
Import GoString.

(* ===================================================================== *)
(** * Dynamic values and errors *)
(* ===================================================================== *)

(** Values of type [any] met in this program.  A [float64] is denoted by
    the decimal literal it was read from (floating point is not
    modelled); a [map[string]any] by a finite map (the nil map and the
    empty map read the same). *)
Inductive any : Type :=
  | nil
  | AString (s : string)
  | ABool (b : bool)
  | AInt (z : Z)
  | AFloat64 (literal : string)
  | AError (msg : string)
  | ASlice (l : list any)
  | AMap (m : gmap string any).

Definition is_nil (v : any) : bool := if v is nil then true else false.

(** [error]: [None] is the nil error, [Some msg] an error whose
    [Error()] is [msg]. *)
Abbreviation error := (option string).

(** [fmt.Errorf(prefix + ": %w", err)] *)
Definition wrap (prefix err : string) : string := prefix +:+ ": " +:+ err.


(* ===================================================================== *)
(** * Package tools *)
(* ===================================================================== *)

(** The part of package [reflect] the tools use. *)
Module reflect.

Inductive Kind : Set :=
  | Invalid | Bool
  | Int | Int8 | Int16 | Int32 | Int64
  | Uint | Uint8 | Uint16 | Uint32 | Uint64 | Uintptr
  | Float32 | Float64 | Complex64 | Complex128
  | Array | Chan | Func | Interface | Map | Pointer | Slice
  | String | Struct | UnsafePointer.

(** A [reflect.Type]: its [Kind()], its [String()], and whether it
    implements the interface [error]. *)
Record Type_ := {
  kind : Kind;
  name : string;
  implementsError : bool
}.

(** The type of a function: [In(i)] for [i < NumIn()], [Out(i)] for
    [i < NumOut()]. *)
Record FuncType := {
  ins : list Type_;
  outs : list Type_
}.

Definition NumIn (t : FuncType) : nat := length (ins t).
Definition NumOut (t : FuncType) : nat := length (outs t).

(** What the tools ask of packages [reflect] and [encoding/json] at run
    time, on values of type [any]:
    - [Zero t] is [reflect.Zero(t)];
    - [Convert v t] is [Some v'] when the dynamic type of [v] is
      [ConvertibleTo(t)], with [v'] the result of [Convert(t)], and
      [None] otherwise;
    - [Marshal v] is [json.Marshal(v)];
    - [UnmarshalInto data t] is [json.Unmarshal(data, new(t))] followed
      by reading the pointer. *)
Record Runtime := {
  Zero : Type_ → any;
  Convert : any → Type_ → option any;
  Marshal : any → string + string;
  UnmarshalInto : string → Type_ → any + string
}.

(** A function value: its type and what [Value.Call] returns. *)
Record Function := {
  typeOf : FuncType;
  Call : list any → list any
}.

End reflect.

Module tools.

(** [PropertyDef] *)
Record PropertyDef := {
  pType : string;
  pDescription : string;
  Enum : list string;
  Default : any
}.

(** [ToolSchema] *)
Record ToolSchema := {
  Type_ : string;
  Properties : gmap string PropertyDef;
  Required : list string
}.

(** The interface [Tool].  [Execute] is the tool's own code. *)
Record Tool := {
  Name : string;
  Description : string;
  Schema : ToolSchema;
  Execute : gmap string any → any * error
}.

(** [FunctionTool[F]] *)
Record FunctionTool := {
  name : string;
  description : string;
  fn : reflect.Function;
  schema : ToolSchema
}.

(** [fmt.Sprintf("arg%d", i)] *)
Definition argName (i : nat) : string := "arg" +:+ pretty i.

Definition goTypeToJSONType (t : reflect.Type_) : string + string :=
  match reflect.kind t with
  | reflect.String => inl "string"
  | reflect.Bool => inl "boolean"
  | reflect.Int | reflect.Int8 | reflect.Int16 | reflect.Int32 | reflect.Int64
  | reflect.Uint | reflect.Uint8 | reflect.Uint16 | reflect.Uint32
  | reflect.Uint64 => inl "integer"
  | reflect.Float32 | reflect.Float64 => inl "number"
  | reflect.Slice | reflect.Array => inl "array"
  | reflect.Map | reflect.Struct => inl "object"
  | _ => inr ("unsupported type: " +:+ reflect.name t)
  end.

(** The loop of [createSchemaFromFunction], from parameter [i] on;
    [params] are the parameter types [In(i), In(i+1), ...]. *)
Fixpoint schemaLoop (i : nat) (params : list reflect.Type_)
    (properties : gmap string PropertyDef) (required : list string)
    : gmap string PropertyDef * list string + string :=
  match params with
  | [] => inl (properties, required)
  | paramType :: rest =>
      let paramName := argName i in
      match goTypeToJSONType paramType with
      | inr err => inr err
      | inl jsonType =>
          schemaLoop (S i) rest
            (<[paramName := {| pType := jsonType;
                               pDescription :=
                                 "Parameter " +:+ pretty i +:+ " of type "
                                 +:+ reflect.name paramType;
                               Enum := [];
                               Default := nil |}]> properties)
            (required ++ [paramName])
      end
  end.

Definition createSchemaFromFunction (fnType : reflect.FuncType)
    : ToolSchema + string :=
  match schemaLoop 0 (reflect.ins fnType) ∅ [] with
  | inr err => inr err
  | inl (properties, required) =>
      inl {| Type_ := "object"; Properties := properties; Required := required |}
  end.

(** [NewFunctionTool].  The check that [fn] is of kind [Func] is by
    typing here: [fn] is a [reflect.Function]. *)
Definition NewFunctionTool (name description : string) (fn : reflect.Function)
    : FunctionTool + string :=
  if bool_decide (name = EmptyString) then inr "tool name cannot be empty"
  else if bool_decide (description = EmptyString)
  then inr "tool description cannot be empty"
  else match createSchemaFromFunction (reflect.typeOf fn) with
       | inr err => inr (wrap "failed to create schema" err)
       | inl schema =>
           inl {| name := name; description := description; fn := fn;
                  schema := schema |}
       end.

Section execute.
Variable rt : reflect.Runtime.

Definition convertArgument (arg : any) (targetType : reflect.Type_)
    : any + string :=
  if is_nil arg then inl (reflect.Zero rt targetType)
  else match reflect.Convert rt arg targetType with
       | Some v => inl v
       | None =>
           match reflect.Marshal rt arg with
           | inr err => inr (wrap "failed to marshal argument" err)
           | inl jsonData =>
               match reflect.UnmarshalInto rt jsonData targetType with
               | inr err => inr (wrap "failed to unmarshal argument" err)
               | inl v => inl v
               end
           end
       end.

(** The loop of [prepareArguments], from parameter [i] on. *)
Fixpoint prepareLoop (i : nat) (params : list reflect.Type_)
    (args : gmap string any) : list any + string :=
  match params with
  | [] => inl []
  | paramType :: rest =>
      let paramName := argName i in
      match args !! paramName with
      | None => inr ("missing required argument: " +:+ paramName)
      | Some arg =>
          match convertArgument arg paramType with
          | inr err =>
              inr (wrap ("failed to convert argument " +:+ paramName) err)
          | inl value =>
              match prepareLoop (S i) rest args with
              | inr err => inr err
              | inl callArgs => inl (value :: callArgs)
              end
          end
      end
  end.

Definition prepareArguments (fnType : reflect.FuncType)
    (args : gmap string any) : list any + string :=
  prepareLoop 0 (reflect.ins fnType) args.

(** [results[i].Interface().(error).Error()] *)
Definition errorText (v : any) : string :=
  match v with AError msg => msg | _ => EmptyString end.

(** [FunctionTool.Execute] *)
Definition FunctionTool_Execute (t : FunctionTool) (args : gmap string any)
    : any * error :=
  let fnType := reflect.typeOf (fn t) in
  match prepareArguments fnType args with
  | inr err => (nil, Some (wrap "failed to prepare arguments" err))
  | inl callArgs =>
      let results := reflect.Call (fn t) callArgs in
      match results with
      | [] => (nil, None)
      | first :: _ =>
          let lastResultIdx := (length results - 1)%nat in
          if bool_decide (1 < reflect.NumOut fnType)%nat
             && from_option reflect.implementsError false
                  (reflect.outs fnType !! lastResultIdx)
          then
            let last := default nil (results !! lastResultIdx) in
            if negb (is_nil last) then (nil, Some (errorText last))
            else (first, None)
          else (first, None)
      end
  end.

(** A [FunctionTool] seen through the interface [Tool]. *)
Definition asTool (t : FunctionTool) : Tool :=
  {| Name := name t; Description := description t; Schema := schema t;
     Execute := FunctionTool_Execute t |}.

End execute.

(** [FormatToolDescription].  Go ranges over the map [Properties] in an
    unspecified order; the order here is the one of [map_to_list]. *)
Definition FormatToolDescription (tool : Tool) : string :=
  let schema := Schema tool in
  "Tool Name: " +:+ Name tool +:+ nl +:+
  "Description: " +:+ Description tool +:+ nl +:+
  (if bool_decide (0 < size (Properties schema))%nat then
     "Parameters:" +:+ nl +:+
     foldr (λ '(name, prop) acc,
              "  - " +:+ name +:+ ": " +:+ pType prop +:+
              (if bool_decide (name ∈ Required schema) then " (required)"
               else EmptyString) +:+ nl +:+
              "    " +:+ pDescription prop +:+ nl +:+ acc)
           EmptyString (map_to_list (Properties schema))
   else EmptyString).

End tools.

(* ===================================================================== *)
(** * Package models: messages and the model capability *)
(* ===================================================================== *)

Module models.

Definition MessageRole := string.
Definition RoleSystem : MessageRole := "system".
Definition RoleUser : MessageRole := "user".
Definition RoleAssistant : MessageRole := "assistant".
Definition RoleTool : MessageRole := "tool".

Record Message := {
  Role : MessageRole;
  Content : string;
  Name : string
}.

(** One entry of the list handed to [GenerateWithTools]: the map with
    keys [type] (always [function]) and [function], the latter a map
    with keys [name], [description] and [parameters]. *)
Record ToolDecl := {
  fnName : string;
  fnDescription : string;
  parameters : tools.ToolSchema
}.

(** The interface [Model].  A model is external and may be stateful:
    its reply is a function of the number of calls made to it before
    and of its inputs.  [inl] is the generated text, [inr] the error. *)
Record Model := {
  Generate : nat → list Message → string + string;
  GenerateWithTools : nat → list Message → list ToolDecl → string + string
}.

End models.

(* ===================================================================== *)
(** * Package memory *)
(* ===================================================================== *)

Module memory.

(** [ToolCall] *)
Record ToolCall := {
  Name : string;
  Arguments : gmap string any;
  Output : any;
  Error : string
}.

(** [Step] *)
Record Step := {
  Type_ : string;
  Messages : list models.Message;
  EndTimestamp : bool;
  ToolCalls : list ToolCall
}.

(** [Memory]: [Steps] holds step values; [curStep] is a pointer. *)
Record Memory := {
  Steps : list Step;
  curStep : option nat
}.

Definition NewMemory : Memory := {| Steps := []; curStep := None |}.

(** The mutable state a run touches: the heap cells that hold the steps
    allocated so far (a pointer to a step is the index of its cell), the
    memory the agent currently owns, and the number of calls made to the
    model so far.  The cells of [TaskStep], [SystemPromptStep],
    [ActionStep] and [PlanningStep] are those of their embedded [Step];
    the other fields of these structs are written once and never read. *)
Record World := {
  heap : list Step;
  mem : Memory;
  modelCalls : nat
}.

Definition setHeap (h : list Step) (w : World) : World :=
  {| heap := h; mem := mem w; modelCalls := modelCalls w |}.
Definition setMem (m : Memory) (w : World) : World :=
  {| heap := heap w; mem := m; modelCalls := modelCalls w |}.

(** The step a pointer [p] points to. *)
Definition deref (w : World) (p : nat) : option Step := heap w !! p.

(** Assignment through the pointer [p]: the cell gets [f] of its old value. *)
Definition update (p : nat) (f : Step → Step) (w : World) : World :=
  setHeap (alter f p (heap w)) w.

(** The two statements every [Add...Step] ends with:
    [m.curStep = &s.Step] where [s] is freshly allocated, then
    [m.Steps = append(m.Steps, s.Step)], which appends a copy of the
    value of [s.Step].  The pointer to [s] is returned. *)
Definition openStep (s : Step) (w : World) : nat * World :=
  let p := length (heap w) in
  (p, {| heap := heap w ++ [s];
         mem := {| Steps := Steps (mem w) ++ [s]; curStep := Some p |};
         modelCalls := modelCalls w |}).

Definition AddTaskStep (task : string) (messages : list models.Message)
    (w : World) : nat * World :=
  openStep {| Type_ := "task"; Messages := messages;
              EndTimestamp := false; ToolCalls := [] |} w.

Definition AddSystemPromptStep (systemPrompt : string)
    (messages : list models.Message) (w : World) : nat * World :=
  openStep {| Type_ := "system_prompt"; Messages := messages;
              EndTimestamp := false; ToolCalls := [] |} w.

Definition AddActionStep (input : string) (messages : list models.Message)
    (w : World) : nat * World :=
  openStep {| Type_ := "action"; Messages := messages;
              EndTimestamp := false; ToolCalls := [] |} w.

Definition AddPlanningStep (facts plan : string)
    (messages : list models.Message) (w : World) : nat * World :=
  openStep {| Type_ := "planning"; Messages := messages;
              EndTimestamp := false; ToolCalls := [] |} w.

(** [AddToolCall]: the record returned ([None] for the nil pointer) and
    the new state. *)
Definition AddToolCall (name : string) (args : gmap string any) (output : any)
    (err : error) (w : World) : option ToolCall * World :=
  match curStep (mem w) with
  | None => (None, w)
  | Some p =>
      let toolCall :=
        {| Name := name; Arguments := args; Output := output;
           Error := default EmptyString err |} in
      (Some toolCall,
       update p (λ s, {| Type_ := Type_ s; Messages := Messages s;
                         EndTimestamp := EndTimestamp s;
                         ToolCalls := ToolCalls s ++ [toolCall] |}) w)
  end.

Definition CompleteCurrentStep (w : World) : World :=
  match curStep (mem w) with
  | None => w
  | Some p =>
      setMem {| Steps := Steps (mem w); curStep := None |}
        (update p (λ s, {| Type_ := Type_ s; Messages := Messages s;
                           EndTimestamp := true;
                           ToolCalls := ToolCalls s |}) w)
  end.

Definition GetSteps (w : World) : list Step := Steps (mem w).

Definition GetToolCalls (w : World) : list ToolCall :=
  fold_left (λ toolCalls step, toolCalls ++ ToolCalls step) (Steps (mem w)) [].

Definition GetMessages (w : World) : list models.Message :=
  fold_left (λ messages step, messages ++ Messages step) (Steps (mem w)) [].

(** [step.Messages = append(step.Messages, msg)] through the pointer
    [step]. *)
Definition appendMessage (step : nat) (msg : models.Message) (w : World) : World :=
  update step (λ s, {| Type_ := Type_ s; Messages := Messages s ++ [msg];
                       EndTimestamp := EndTimestamp s;
                       ToolCalls := ToolCalls s |}) w.

End memory.

(* ===================================================================== *)
(** * Package encoding/json, as the agents use it *)
(* ===================================================================== *)

(** [json.Unmarshal(data, &call)] for
    [var call struct { Tool string; Args map[string]any }] (fields tagged
    [tool] and [args]).  The input is first checked to be one JSON value
    (RFC 8259, nesting at most 10000 deep) and then decoded into the struct.
    Not modelled: the text of the errors of the package (each error is a
    fixed message here), the replacement of invalid UTF-8 inside string
    literals by U+FFFD (bytes are kept), and the range check of numbers
    decoded to [float64]. *)
Module json.

Inductive value : Type :=
  | Null
  | Bool (b : bool)
  | Number (literal : string)
  | Str (s : string)
  | Array (elems : list value)
  | Object (members : list (string * value)).

Definition isWs (c : ascii) : bool :=
  bool_decide (code c = 32 ∨ code c = 9 ∨ code c = 10 ∨ code c = 13)%nat.

Fixpoint skipWs (s : string) : string :=
  match s with
  | String c r => if isWs c then skipWs r else s
  | EmptyString => s
  end.

Definition isDigit (c : ascii) : bool := bool_decide (48 ≤ code c ≤ 57)%nat.

Definition hexVal (c : ascii) : option N :=
  let n := code c in
  if bool_decide (48 ≤ n ≤ 57)%nat then Some (N.of_nat (n - 48))
  else if bool_decide (97 ≤ n ≤ 102)%nat then Some (N.of_nat (n - 87))
  else if bool_decide (65 ≤ n ≤ 70)%nat then Some (N.of_nat (n - 55))
  else None.

Definition hex4 (a b c d : ascii) : option N :=
  x1 ← hexVal a; x2 ← hexVal b; x3 ← hexVal c; x4 ← hexVal d;
  Some (((x1 * 16 + x2) * 16 + x3) * 16 + x4)%N.

Definition byte (n : N) : ascii := ascii_of_N n.

(** The UTF-8 encoding of a code point. *)
Definition utf8 (cp : N) : string :=
  (if cp <? 128 then String (byte cp) EmptyString
   else if cp <? 2048 then
     String (byte (192 + cp / 64)) (String (byte (128 + cp mod 64)) EmptyString)
   else if cp <? 65536 then
     String (byte (224 + cp / 4096))
       (String (byte (128 + (cp / 64) mod 64))
          (String (byte (128 + cp mod 64)) EmptyString))
   else
     String (byte (240 + cp / 262144))
       (String (byte (128 + (cp / 4096) mod 64))
          (String (byte (128 + (cp / 64) mod 64))
             (String (byte (128 + cp mod 64)) EmptyString))))%N.

Definition replacementChar : N := 65533.
Definition isHighSurrogate (u : N) : bool := ((55296 <=? u) && (u <? 56320))%N.
Definition isLowSurrogate (u : N) : bool := ((56320 <=? u) && (u <? 57344))%N.

Definition simpleEscape (c : ascii) : option ascii :=
  match code c with
  | 34%nat => Some dq
  | 92%nat => Some "092"%char
  | 47%nat => Some "047"%char
  | 98%nat => Some "008"%char
  | 102%nat => Some "012"%char
  | 110%nat => Some "010"%char
  | 114%nat => Some "013"%char
  | 116%nat => Some "009"%char
  | _ => None
  end.

(** The body of a string literal, after its opening quote: the decoded
    string and what follows the closing quote. *)
Fixpoint stringBody (s : string) : option (string * string) :=
  match s with
  | EmptyString => None
  | String c r =>
      if bool_decide (code c = 34)%nat then Some (EmptyString, r)
      else if bool_decide (code c = 92)%nat then
        match r with
        | EmptyString => None
        | String e r1 =>
            if bool_decide (code e = 117)%nat then
              match r1 with
              | String h1 (String h2 (String h3 (String h4 r2))) =>
                  u ← hex4 h1 h2 h3 h4;
                  if isHighSurrogate u then
                    match r2 with
                    | String b (String x (String l1 (String l2
                        (String l3 (String l4 r3))))) =>
                        match (if bool_decide (code b = 92 ∧ code x = 117)%nat
                               then hex4 l1 l2 l3 l4 else None) with
                        | Some lo =>
                            if isLowSurrogate lo then
                              '(t, rest) ← stringBody r3;
                              Some (utf8 (65536 + (u - 55296) * 1024
                                          + (lo - 56320))%N +:+ t, rest)
                            else
                              '(t, rest) ← stringBody r2;
                              Some (utf8 replacementChar +:+ t, rest)
                        | None =>
                            '(t, rest) ← stringBody r2;
                            Some (utf8 replacementChar +:+ t, rest)
                        end
                    | _ =>
                        '(t, rest) ← stringBody r2;
                        Some (utf8 replacementChar +:+ t, rest)
                    end
                  else if isLowSurrogate u then
                    '(t, rest) ← stringBody r2;
                    Some (utf8 replacementChar +:+ t, rest)
                  else
                    '(t, rest) ← stringBody r2;
                    Some (utf8 u +:+ t, rest)
              | _ => None
              end
            else
              d ← simpleEscape e;
              '(t, rest) ← stringBody r1;
              Some (String d t, rest)
        end
      else if bool_decide (code c < 32)%nat then None
      else '(t, rest) ← stringBody r; Some (String c t, rest)
  end.

(** The longest prefix of digits and what follows it. *)
Fixpoint digits (s : string) : string * string :=
  match s with
  | String c r =>
      if isDigit c then let '(d, rest) := digits r in (String c d, rest)
      else (EmptyString, s)
  | EmptyString => (EmptyString, s)
  end.

(** A number literal: an optional minus sign; then a zero, or a digit
    from 1 to 9 followed by digits; then optionally a dot and one or more
    digits; then optionally an exponent: e or E, an optional sign, one or
    more digits. *)
Definition number (s : string) : option (string * string) :=
  let '(sign, s1) :=
    match s with
    | String c r => if bool_decide (code c = 45)%nat then ("-", r) else (EmptyString, s)
    | EmptyString => (EmptyString, s)
    end in
  '(int, s2) ←
    match s1 with
    | String c r =>
        if bool_decide (code c = 48)%nat then Some ("0", r)
        else if isDigit c then Some (digits s1)
        else None
    | EmptyString => None
    end;
  '(frac, s3) ←
    match s2 with
    | String c r =>
        if bool_decide (code c = 46)%nat then
          let '(d, rest) := digits r in
          if bool_decide (d = EmptyString) then None else Some ("." +:+ d, rest)
        else Some (EmptyString, s2)
    | EmptyString => Some (EmptyString, s2)
    end;
  '(exp, s4) ←
    match s3 with
    | String c r =>
        if bool_decide (code c = 101 ∨ code c = 69)%nat then
          let '(sg, r') :=
            match r with
            | String c' r'' =>
                if bool_decide (code c' = 43 ∨ code c' = 45)%nat
                then (String c' EmptyString, r'') else (EmptyString, r)
            | EmptyString => (EmptyString, r)
            end in
          let '(d, rest) := digits r' in
          if bool_decide (d = EmptyString) then None
          else Some (String c sg +:+ d, rest)
        else Some (EmptyString, s3)
    | EmptyString => Some (EmptyString, s3)
    end;
  Some (sign +:+ int +:+ frac +:+ exp, s4).

Definition maxNestingDepth : nat := 10000.

(** One JSON value at the start of [s] (after white space) and what
    follows it.  [fuel] bounds the recursion: [S (len s)] is enough. *)
Fixpoint parseValue (fuel depth : nat) (s : string) : option (value * string) :=
  match fuel with
  | O => None
  | S fuel' =>
      match skipWs s with
      | EmptyString => None
      | String c r =>
          if bool_decide (code c = 34)%nat then
            '(t, rest) ← stringBody r; Some (Str t, rest)
          else if bool_decide (code c = 123)%nat then
            if bool_decide (maxNestingDepth ≤ depth)%nat then None
            else
              match skipWs r with
              | String c' r' =>
                  if bool_decide (code c' = 125)%nat then Some (Object [], r')
                  else '(ms, rest) ← parseMembers fuel' (S depth) r;
                       Some (Object ms, rest)
              | EmptyString => None
              end
          else if bool_decide (code c = 91)%nat then
            if bool_decide (maxNestingDepth ≤ depth)%nat then None
            else
              match skipWs r with
              | String c' r' =>
                  if bool_decide (code c' = 93)%nat then Some (Array [], r')
                  else '(vs, rest) ← parseElems fuel' (S depth) r;
                       Some (Array vs, rest)
              | EmptyString => None
              end
          else if HasPrefix (String c r) "true" then
            Some (Bool true, from 4 (String c r))
          else if HasPrefix (String c r) "false" then
            Some (Bool false, from 5 (String c r))
          else if HasPrefix (String c r) "null" then
            Some (Null, from 4 (String c r))
          else '(n, rest) ← number (String c r); Some (Number n, rest)
      end
  end
(** The elements of a non-empty array, up to and including its closing
    bracket. *)
with parseElems (fuel depth : nat) (s : string) : option (list value * string) :=
  match fuel with
  | O => None
  | S fuel' =>
      '(v, s1) ← parseValue fuel' depth s;
      match skipWs s1 with
      | String c r =>
          if bool_decide (code c = 44)%nat then
            '(vs, rest) ← parseElems fuel' depth r; Some (v :: vs, rest)
          else if bool_decide (code c = 93)%nat then Some ([v], r)
          else None
      | EmptyString => None
      end
  end
(** The members of a non-empty object, up to and including its closing
    brace. *)
with parseMembers (fuel depth : nat) (s : string)
    : option (list (string * value) * string) :=
  match fuel with
  | O => None
  | S fuel' =>
      match skipWs s with
      | String q r =>
          if bool_decide (code q = 34)%nat then
            '(k, s1) ← stringBody r;
            match skipWs s1 with
            | String c s2 =>
                if bool_decide (code c = 58)%nat then
                  '(v, s3) ← parseValue fuel' depth s2;
                  match skipWs s3 with
                  | String c' r' =>
                      if bool_decide (code c' = 44)%nat then
                        '(ms, rest) ← parseMembers fuel' depth r';
                        Some ((k, v) :: ms, rest)
                      else if bool_decide (code c' = 125)%nat
                      then Some ([(k, v)], r')
                      else None
                  | EmptyString => None
                  end
                else None
            | EmptyString => None
            end
          else None
      | EmptyString => None
      end
  end.

(** The whole input as one JSON value. *)
Definition parse (data : string) : option value :=
  '(v, rest) ← parseValue (S (len data)) 0 data;
  if bool_decide (skipWs rest = EmptyString) then Some v else None.

(** Decoding into a value of type [any]: objects are
    [map[string]any] (a later duplicate key overwrites), arrays
    [[]any], numbers [float64]. *)
Fixpoint toAny (v : value) : any :=
  match v with
  | Null => nil
  | Bool b => ABool b
  | Number n => AFloat64 n
  | Str s => AString s
  | Array vs => ASlice (map toAny vs)
  | Object ms =>
      AMap ((fix members (ms : list (string * value)) (m : gmap string any) :=
               match ms with
               | [] => m
               | (k, x) :: rest => members rest (<[k := toAny x]> m)
               end) ms ∅)
  end.

(** [bytes.EqualFold(key, field)] for a field name [field] made of
    lower-case ASCII letters: each letter matches itself, its upper
    case, and for [s] and [k] the runes U+017F and U+212A. *)
Fixpoint equalFold (field key : string) : bool :=
  match field with
  | EmptyString => bool_decide (key = EmptyString)
  | String f field' =>
      match key with
      | String c key' =>
          if bool_decide (code c = code f ∨ code c + 32 = code f)%nat
          then equalFold field' key'
          else
            match key' with
            | String c1 key1 =>
                if bool_decide (code f = 115 ∧ code c = 197 ∧ code c1 = 191)%nat
                then equalFold field' key1
                else
                  match key1 with
                  | String c2 key2 =>
                      if bool_decide (code f = 107 ∧ code c = 226
                                      ∧ code c1 = 132 ∧ code c2 = 170)%nat
                      then equalFold field' key2
                      else false
                  | EmptyString => false
                  end
            | EmptyString => false
            end
      | EmptyString => false
      end
  end.

(** The struct being filled. *)
Record call := {
  Tool : string;
  Args : gmap string any
}.

Definition typeError (what : string) : string :=
  "json: cannot unmarshal " +:+ what.

(** One member of the top-level object.  The first error is kept and
    decoding goes on. *)
Definition decodeMember (st : call * error) (member : string * value)
    : call * error :=
  let '(c, err) := st in
  let '(k, v) := member in
  let fail what := (c, if err is Some _ then err else Some (typeError what)) in
  if equalFold "tool" k then
    match v with
    | Str s => ({| Tool := s; Args := Args c |}, err)
    | Null => (c, err)
    | _ => fail "into Go struct field .tool of type string"
    end
  else if equalFold "args" k then
    match v with
    | Object ms =>
        ({| Tool := Tool c;
            Args := fold_left (λ m '(k', x), <[k' := toAny x]> m) ms (Args c) |},
         err)
    | Null => ({| Tool := Tool c; Args := ∅ |}, err)
    | _ => fail "into Go struct field .args of type map[string]interface {}"
    end
  else (c, err).

Definition decodeCall (v : value) : call + string :=
  match v with
  | Null => inl {| Tool := EmptyString; Args := ∅ |}
  | Object ms =>
      match fold_left decodeMember ms ({| Tool := EmptyString; Args := ∅ |}, None) with
      | (c, None) => inl c
      | (_, Some err) => inr err
      end
  | _ => inr (typeError "into Go value of type struct")
  end.

Definition Unmarshal (data : string) : call + string :=
  match parse data with
  | None => inr "invalid JSON input"
  | Some v => decodeCall v
  end.

End json.

(* ===================================================================== *)
(** * Package regexp, for the three patterns of the code agent *)
(* ===================================================================== *)

(** Go's regular expressions return the leftmost match and, among the
    matches at one position, the one a backtracking search finds first.
    For the three patterns of [CodeAgent] that match is computed by the
    direct scans below: a greedy run ([\w+], [\s*], [\d+]) is always taken
    whole, since a shorter run is followed by a character of the same
    class, which the rest of the pattern refuses; a lazy run ([.*?],
    [[\s\S]*?]) stops at the first occurrence of what follows it. *)
Module regexp.

(** [\w]: an ASCII letter, a digit or the underscore. *)
Definition isWord (c : ascii) : bool :=
  bool_decide (48 ≤ code c ≤ 57 ∨ 65 ≤ code c ≤ 90 ∨ 97 ≤ code c ≤ 122
               ∨ code c = 95)%nat.

(** [\s]: tab, line feed, form feed, carriage return or space. *)
Definition isSpace (c : ascii) : bool :=
  bool_decide (code c = 9 ∨ code c = 10 ∨ code c = 12 ∨ code c = 13
               ∨ code c = 32)%nat.

(** [\d] *)
Definition isDigit (c : ascii) : bool := bool_decide (48 ≤ code c ≤ 57)%nat.

(** The longest prefix of [s] whose characters satisfy [p]. *)
Fixpoint run (p : ascii → bool) (s : string) : string :=
  match s with
  | String c r => if p c then String c (run p r) else EmptyString
  | EmptyString => EmptyString
  end.

(** The text before the first [stop], provided no line feed comes
    before it when [dot] is set (a dot does not match a line feed). *)
Fixpoint until (dot : bool) (stop : ascii) (s : string) : option string :=
  match s with
  | EmptyString => None
  | String c r =>
      if bool_decide (c = stop) then Some EmptyString
      else if dot && bool_decide (c = lf) then None
      else String c <$> until dot stop r
  end.

(** All the matches of a pattern in [s], from left to right and without
    overlap ([FindAllStringSubmatch(s, -1)]), given the match of the
    pattern at the start of a string: its groups and its length, which
    is positive.  [skip] characters are still part of the last match. *)
Fixpoint findAll {G : Type} (matchAt : string → option (G * nat))
    (skip : nat) (s : string) {struct s} : list G :=
  match skip with
  | S k =>
      match s with
      | String _ r => findAll matchAt k r
      | EmptyString => []
      end
  | O =>
      match matchAt s with
      | Some (g, n) =>
          g :: match s with
               | String _ r => findAll matchAt (n - 1) r
               | EmptyString => []
               end
      | None =>
          match s with
          | String _ r => findAll matchAt 0 r
          | EmptyString => []
          end
      end
  end.

(** The leftmost match of a pattern in [s] ([FindStringSubmatch]). *)
Fixpoint find {G : Type} (matchAt : string → option G) (s : string) : option G :=
  match matchAt s with
  | Some g => Some g
  | None =>
      match s with
      | String _ r => find matchAt r
      | EmptyString => None
      end
  end.

(** The pattern of [extractCodeBlocks]: three backquotes, an optional
    [\w+], a line feed, a lazy group 1 of any characters, three
    backquotes. *)
Definition codeBlockAt (s : string) : option (string * nat) :=
  if HasPrefix s "```" then
    let tag := run isWord (from 3 s) in
    match from (3 + len tag) s with
    | String c body =>
        if bool_decide (c = lf) then
          e ← Index body "```";
          Some (upto e body, 3 + len tag + 1 + e + 3)%nat
        else None
    | EmptyString => None
    end
  else None.

(** The first pattern of [extractToolCallFromCode]: group 1 [\w+], then
    [\s*], an opening parenthesis, a lazy group 2 of characters other
    than the line feed, a closing parenthesis. *)
Definition callAt (s : string) : option (string * string) :=
  let ident := run isWord s in
  if bool_decide (ident = EmptyString) then None
  else
    let r := from (len ident) s in
    match from (len (run isSpace r)) r with
    | String c body =>
        if bool_decide (code c = 40)%nat then
          argsStr ← until true ")" body; Some (ident, argsStr)
        else None
    | EmptyString => None
    end.

(** The groups 1 to 4 of a match of the second pattern. *)
Record argGroups := {
  g1 : string;
  g2 : string;
  g3 : string;
  g4 : string
}.

(** The second pattern of [extractToolCallFromCode]: group 1 [\w+],
    [\s*], an equal sign, [\s*], and then one of: group 2 between
    double quotes, group 3 between single quotes, or group 4, digits
    optionally followed by a dot and digits. *)
Definition argAt (s : string) : option (argGroups * nat) :=
  let ident := run isWord s in
  if bool_decide (ident = EmptyString) then None
  else
    let r1 := from (len ident) s in
    let ws1 := len (run isSpace r1) in
    match from ws1 r1 with
    | String c r2 =>
        if bool_decide (code c = 61)%nat then
          let ws2 := len (run isSpace r2) in
          let before := (len ident + ws1 + 1 + ws2)%nat in
          match from ws2 r2 with
          | String q body =>
              if bool_decide (q = dq) then
                v ← until false dq body;
                Some ({| g1 := ident; g2 := v; g3 := EmptyString;
                         g4 := EmptyString |}, before + 1 + len v + 1)%nat
              else if bool_decide (code q = 39)%nat then
                v ← until false "'" body;
                Some ({| g1 := ident; g2 := EmptyString; g3 := v;
                         g4 := EmptyString |}, before + 1 + len v + 1)%nat
              else if isDigit q then
                let int := run isDigit (String q body) in
                let frac :=
                  match from (len int) (String q body) with
                  | String d r3 =>
                      if bool_decide (code d = 46)%nat
                         && negb (bool_decide (run isDigit r3 = EmptyString))
                      then "." +:+ run isDigit r3
                      else EmptyString
                  | EmptyString => EmptyString
                  end in
                Some ({| g1 := ident; g2 := EmptyString; g3 := EmptyString;
                         g4 := int +:+ frac |}, before + len int + len frac)%nat
              else None
          | EmptyString => None
          end
        else None
    | EmptyString => None
    end.

End regexp.

(** [fmt.Sscanf(s, "%d", &i)] on a string of digits, for [var i int]
    (64 bits): the number read, and [0], the value [i] had, when it does
    not fit. *)
Definition scanInt (s : string) : Z :=
  let n :=
    (fix go (acc : Z) (s : string) : Z :=
       match s with
       | String c r => go (10 * acc + (Z.of_nat (code c) - 48)) r
       | EmptyString => acc
       end) 0 s in
  if n <? 2 ^ 63 then n else 0.

(** [strings.Join(elems, sep)] *)
Fixpoint Join (elems : list string) (sep : string) : string :=
  match elems with
  | [] => EmptyString
  | [x] => x
  | x :: rest => x +:+ sep +:+ Join rest sep
  end.

(** [fmt.Sprintf("%v", v)].  A [float64] is printed as the literal that
    denotes it; the keys of a map are printed in the order of
    [map_fold] (Go sorts them). *)
Fixpoint Sprint (v : any) : string :=
  match v with
  | nil => "<nil>"
  | AString s => s
  | ABool b => if b then "true" else "false"
  | AInt z => pretty z
  | AFloat64 literal => literal
  | AError msg => msg
  | ASlice l => "[" +:+ Join (map Sprint l) " " +:+ "]"
  | AMap m =>
      "map[" +:+
      Join (map_fold (λ k x acc, (k +:+ ":" +:+ Sprint x) :: acc) [] m) " "
      +:+ "]"
  end.

(* ===================================================================== *)
(** * Package agents *)
(* ===================================================================== *)

Module agents.
Import memory.

(** The result of a method that returns [(any, error)] and may write to
    the memory and call the model. *)
Abbreviation outcome := (any * error * World)%type.

(** The interface [Stepper]; the step is passed by pointer. *)
Definition Stepper := nat → World → outcome.

(** [*BaseAgent], without its field [memory], which is [mem] of the
    [World]. *)
Record BaseAgent := {
  tools : list tools.Tool;
  model : models.Model;
  maxSteps : Z;
  systemPrompt : string;
  name : string;
  description : string;
  stepper : option Stepper
}.

(** [Option]: an option updates the agent it is given, or fails. *)
Definition Option := BaseAgent → BaseAgent + string.

Definition WithMaxSteps (maxSteps : Z) : Option := λ a,
  if bool_decide (maxSteps ≤ 0) then inr "maxSteps must be greater than 0"
  else inl {| tools := tools a; model := model a; maxSteps := maxSteps;
              systemPrompt := systemPrompt a; name := name a;
              description := description a; stepper := stepper a |}.

Definition WithSystemPrompt (systemPrompt : string) : Option := λ a,
  inl {| tools := tools a; model := model a; maxSteps := maxSteps a;
         systemPrompt := systemPrompt; name := name a;
         description := description a; stepper := stepper a |}.

Definition WithName (name : string) : Option := λ a,
  inl {| tools := tools a; model := model a; maxSteps := maxSteps a;
         systemPrompt := systemPrompt a; name := name;
         description := description a; stepper := stepper a |}.

Definition WithDescription (description : string) : Option := λ a,
  inl {| tools := tools a; model := model a; maxSteps := maxSteps a;
         systemPrompt := systemPrompt a; name := name a;
         description := description; stepper := stepper a |}.

Definition SetStepper (s : Stepper) (a : BaseAgent) : BaseAgent :=
  {| tools := tools a; model := model a; maxSteps := maxSteps a;
     systemPrompt := systemPrompt a; name := name a;
     description := description a; stepper := Some s |}.

Definition defaultSystemPrompt : string :=
  "You are a helpful assistant that can use tools to help the user.".

(** The loop [for _, opt := range opts] of [NewBaseAgent]: each option
    is applied to the agent under construction. *)
Fixpoint applyOptions (opts : list Option) (agent : BaseAgent)
    : BaseAgent + string :=
  match opts with
  | [] => inl agent
  | opt :: rest =>
      match opt agent with
      | inr err => inr (wrap "error applying option" err)
      | inl agent' => applyOptions rest agent'
      end
  end.

(** [NewBaseAgent]; a nil [model] is [None]. *)
Definition NewBaseAgent (tools : list tools.Tool) (model : option models.Model)
    (opts : list Option) : BaseAgent + string :=
  if bool_decide (length tools = 0%nat) then inr "at least one tool is required"
  else match model with
       | None => inr "model is required"
       | Some model =>
           applyOptions opts
             {| tools := tools; model := model; maxSteps := 20;
                systemPrompt := defaultSystemPrompt; name := "BaseAgent";
                description := "A base agent implementation";
                stepper := None |}
       end.

(** ** Helpers with the same body in [BaseAgent] and [ToolCallingAgent] *)

Definition buildToolsDescription (tools : list tools.Tool) : string :=
  "You have access to the following tools:" +:+ nl +:+ nl +:+
  foldr (λ tool acc, tools.FormatToolDescription tool +:+ nl +:+ acc)
    ("To use a tool, respond with a message formatted as follows:" +:+ nl +:+
     "```json" +:+ nl +:+
     "{" +:+ nl +:+
     "  " +:+ quoted "tool" +:+ ": " +:+ quoted "tool_name" +:+ "," +:+ nl +:+
     "  " +:+ quoted "args" +:+ ": {" +:+ nl +:+
     "    " +:+ quoted "arg1" +:+ ": " +:+ quoted "value1" +:+ "," +:+ nl +:+
     "    " +:+ quoted "arg2" +:+ ": " +:+ quoted "value2" +:+ nl +:+
     "  }" +:+ nl +:+
     "}" +:+ nl +:+
     "```" +:+ nl +:+
     "If you want to provide a final answer, just respond with text instead."
     +:+ nl)
    tools.

Definition buildMessages (systemPrompt : string) (tools : list tools.Tool)
    (w : World) : list models.Message :=
  let messages :=
    [ {| models.Role := models.RoleSystem; models.Content := systemPrompt;
         models.Name := EmptyString |} ] in
  let messages :=
    if bool_decide (0 < length tools)%nat then
      messages ++ [ {| models.Role := models.RoleSystem;
                       models.Content := buildToolsDescription tools;
                       models.Name := EmptyString |} ]
    else messages in
  fold_left (λ messages msg,
               if bool_decide (models.Role msg = models.RoleSystem) then messages
               else messages ++ [msg])
    (GetMessages w) messages.

(** [extractJSON].  After the opening fence is found at offset [start],
    the source overwrites [start] with the offset of the end of line
    counted from the fence, [strings.Index(s[start:], "\n")], plus one,
    and then slices [s] itself from there. *)
Definition extractJSON (s : string) : string :=
  let start :=
    match Index s "```json" with
    | Some start => Some start
    | None => Index s "```"
    end in
  match start with
  | None => EmptyString
  | Some start =>
      match Index (from start s) nl with
      | None => EmptyString
      | Some start =>
          let start := (start + 1)%nat in
          match Index (from start s) "```" with
          | None => EmptyString
          | Some end_ => TrimSpace (slice start (start + end_) s)
          end
      end
  end.

(** [extractToolCall]: the tool name, the arguments and the error. *)
Definition extractToolCall (response : string)
    : string * gmap string any * error :=
  let jsonStr := extractJSON response in
  if bool_decide (jsonStr = EmptyString) then (EmptyString, ∅, None)
  else match json.Unmarshal jsonStr with
       | inr err => (EmptyString, ∅, Some (wrap "failed to parse tool call" err))
       | inl call =>
           if bool_decide (json.Tool call = EmptyString) then (EmptyString, ∅, None)
           else (json.Tool call, json.Args call, None)
       end.

Fixpoint findTool (tools : list tools.Tool) (name : string) : tools.Tool + string :=
  match tools with
  | [] => inr ("tool not found: " +:+ name)
  | tool :: rest =>
      if bool_decide (tools.Name tool = name) then inl tool
      else findTool rest name
  end.

Definition executeToolCall (tools : list tools.Tool) (step : nat)
    (toolName : string) (args : gmap string any) (w : World) : outcome :=
  match findTool tools toolName with
  | inr err => (nil, Some err, w)
  | inl tool =>
      let '(result, err) := tools.Execute tool args in
      let w := (AddToolCall toolName args result err w).2 in
      match err with
      | Some e => (nil, Some e, w)
      | None => (result, None, w)
      end
  end.

(** The dispatch that ends a step: [executeToolCall], then the tool
    message ([executeAndAddResToMem] of [CodeAgent], and the same
    statements at the end of [ToolCallingAgent.Step]). *)
Definition executeAndAddResToMem (tools : list tools.Tool) (step : nat)
    (toolName : string) (args : gmap string any) (w : World) : outcome :=
  match executeToolCall tools step toolName args w with
  | (_, Some err, w) => (nil, Some (wrap "failed to execute tool call" err), w)
  | (result, None, w) =>
      (nil, None,
       appendMessage step
         {| models.Role := models.RoleTool; models.Name := toolName;
            models.Content := Sprint result |} w)
  end.

(** [step.Messages] read through the pointer [step]. *)
Definition stepMessages (step : nat) (w : World) : list models.Message :=
  from_option Messages [] (deref w step).

Definition tick (w : World) : World :=
  {| heap := heap w; mem := mem w; modelCalls := S (modelCalls w) |}.

(** The loop of [Run], with [n] iterations left; it returns
    [finalAnswer] and [lastError]. *)
Fixpoint runLoop (systemPrompt : string) (tools : list tools.Tool)
    (Step : Stepper) (task : string) (n : nat) (w : World) : outcome :=
  match n with
  | O => (nil, None, w)
  | S n' =>
      let messages := buildMessages systemPrompt tools w in
      let '(actionStep, w) := AddActionStep task messages w in
      let '(result, err, w) := Step actionStep w in
      match err with
      | Some e => (nil, Some e, CompleteCurrentStep w)
      | None =>
          if negb (is_nil result) then (result, None, CompleteCurrentStep w)
          else runLoop systemPrompt tools Step task n' (CompleteCurrentStep w)
      end
  end.

(** The statements of [Run] before its loop: the memory is replaced by
    a new one, and the system prompt and the task are recorded, each in
    a step that is closed at once. *)
Definition startRun (systemPrompt task : string) (w : World) : World :=
  let w := setMem NewMemory w in
  let systemMessages :=
    [ {| models.Role := models.RoleSystem; models.Content := systemPrompt;
         models.Name := EmptyString |} ] in
  let w := CompleteCurrentStep (AddSystemPromptStep systemPrompt systemMessages w).2 in
  let taskMessages :=
    [ {| models.Role := models.RoleUser; models.Content := task;
         models.Name := EmptyString |} ] in
  CompleteCurrentStep (AddTaskStep task taskMessages w).2.

(** The body of [Run], which [BaseAgent] and [ToolCallingAgent] share
    except for the choice of the step function. *)
Definition run (systemPrompt : string) (tools : list tools.Tool)
    (maxSteps : Z) (Step : Stepper) (task : string) (w : World) : outcome :=
  let w := startRun systemPrompt task w in
  let '(finalAnswer, lastError, w) :=
    runLoop systemPrompt tools Step task (Z.to_nat maxSteps) w in
  if is_nil finalAnswer && bool_decide (lastError = None) then
    (finalAnswer,
     Some ("agent reached maximum number of steps (" +:+ pretty maxSteps +:+
           ") without finding an answer"),
     w)
  else (finalAnswer, lastError, w).

(** ** BaseAgent *)

Definition BaseAgent_Step (a : BaseAgent) : Stepper := λ step w,
  (nil, Some "Step method must be implemented by derived agents", w).

Definition BaseAgent_Run (a : BaseAgent) (task : string) (w : World) : outcome :=
  run (systemPrompt a) (tools a) (maxSteps a)
    (match stepper a with
     | Some s => s
     | None => BaseAgent_Step a
     end)
    task w.

(** ** ToolCallingAgent *)

Record ToolCallingAgent := {
  tca_tools : list tools.Tool;
  tca_model : models.Model;
  tca_maxSteps : Z;
  tca_systemPrompt : string;
  tca_name : string;
  tca_description : string
}.

(** The loop [for _, opt := range opts] of [NewToolCallingAgent]: each
    option is applied to a [BaseAgent] built on the spot from the
    fields of [agent]; only its error is looked at. *)
Fixpoint checkOptions (opts : list Option) (agent : ToolCallingAgent)
    : error :=
  match opts with
  | [] => None
  | opt :: rest =>
      match opt {| tools := tca_tools agent; model := tca_model agent;
                   maxSteps := tca_maxSteps agent;
                   systemPrompt := tca_systemPrompt agent;
                   name := tca_name agent;
                   description := tca_description agent;
                   stepper := None |} with
      | inr err => Some (wrap "error applying option" err)
      | inl _ => checkOptions rest agent
      end
  end.

Definition NewToolCallingAgent (tools : list tools.Tool)
    (model : option models.Model) (opts : list Option)
    : ToolCallingAgent + string :=
  if bool_decide (length tools = 0%nat) then inr "at least one tool is required"
  else match model with
       | None => inr "model is required"
       | Some model =>
           let agent :=
             {| tca_tools := tools; tca_model := model; tca_maxSteps := 20;
                tca_systemPrompt := defaultSystemPrompt;
                tca_name := "ToolCallingAgent";
                tca_description :=
                  "An agent specialized in calling tools and handling their output"
             |} in
           match checkOptions opts agent with
           | Some err => inr err
           | None => inl agent
           end
       end.

Definition buildToolsSchema (tools : list tools.Tool) : list models.ToolDecl :=
  map (λ tool, {| models.fnName := tools.Name tool;
                  models.fnDescription := tools.Description tool;
                  models.parameters := tools.Schema tool |}) tools.

Definition ToolCallingAgent_Step (a : ToolCallingAgent) : Stepper := λ step w,
  match models.GenerateWithTools (tca_model a) (modelCalls w)
          (stepMessages step w) (buildToolsSchema (tca_tools a)) with
  | inr err => (nil, Some (wrap "failed to generate response" err), tick w)
  | inl response =>
      let w :=
        appendMessage step
          {| models.Role := models.RoleAssistant; models.Content := response;
             models.Name := EmptyString |} (tick w) in
      match extractToolCall response with
      | (_, _, Some err) =>
          (nil, Some (wrap "failed to extract tool call" err), w)
      | (toolName, args, None) =>
          if bool_decide (toolName = EmptyString) then (AString response, None, w)
          else executeAndAddResToMem (tca_tools a) step toolName args w
      end
  end.

Definition ToolCallingAgent_Run (a : ToolCallingAgent) (task : string)
    (w : World) : outcome :=
  run (tca_systemPrompt a) (tca_tools a) (tca_maxSteps a)
    (ToolCallingAgent_Step a) task w.

(** ** CodeAgent *)

(** [CodeAgent] embeds [*BaseAgent]. *)
Record CodeAgent := {
  base : BaseAgent
}.

Definition codeSystemPrompt : string :=
  "You are a helpful assistant that can use tools to help the user." +:+ nl +:+
  "You will be given a user request, and your job is to create a final answer for the user."
  +:+ nl +:+
  "You have access to tools that can help you fulfill the user's request."
  +:+ nl +:+
  "If necessary, you can call these tools and use their output to craft a better answer."
  +:+ nl +:+
  "You can also generate and execute code to solve complex problems." +:+ nl +:+
  "When you have the answer to the user's request, respond with the relevant information.".

Definition NewCodeAgent (tools : list tools.Tool) (model : option models.Model)
    (opts : list Option) : CodeAgent + string :=
  match NewBaseAgent tools model opts with
  | inr err => inr err
  | inl b =>
      let name := if bool_decide (name b = "BaseAgent") then "CodeAgent" else name b in
      let description :=
        if bool_decide (description b = "A base agent implementation")
        then "An agent specialized in generating and executing code"
        else description b in
      let systemPrompt :=
        if bool_decide (systemPrompt b = defaultSystemPrompt)
        then codeSystemPrompt else systemPrompt b in
      inl {| base := {| tools := agents.tools b; model := agents.model b;
                        maxSteps := maxSteps b; systemPrompt := systemPrompt;
                        name := name; description := description;
                        stepper := stepper b |} |}
  end.

Definition extractCodeBlocks (s : string) : list string :=
  regexp.findAll regexp.codeBlockAt 0 s.

(** The value of one argument match, and the statement
    [args[argName] = argValue]. *)
Definition addArg (args : gmap string any) (argMatch : regexp.argGroups)
    : gmap string any :=
  let argValue :=
    if negb (bool_decide (regexp.g2 argMatch = EmptyString))
    then AString (regexp.g2 argMatch)
    else if negb (bool_decide (regexp.g3 argMatch = EmptyString))
    then AString (regexp.g3 argMatch)
    else if negb (bool_decide (regexp.g4 argMatch = EmptyString))
    then if Contains (regexp.g4 argMatch) "."
         then AFloat64 (regexp.g4 argMatch)
         else AInt (scanInt (regexp.g4 argMatch))
    else nil in
  <[regexp.g1 argMatch := argValue]> args.

(** [extractToolCallFromCode]; its error is always nil. *)
Definition extractToolCallFromCode (a : CodeAgent) (code : string)
    : string * gmap string any * error :=
  match regexp.find regexp.callAt code with
  | None => (EmptyString, ∅, None)
  | Some (toolName, argsStr) =>
      if existsb (λ tool, bool_decide (tools.Name tool = toolName))
           (tools (base a))
      then (toolName,
            fold_left addArg (regexp.findAll regexp.argAt 0 argsStr) ∅,
            None)
      else (EmptyString, ∅, None)
  end.

(** The loop over the code blocks of [CodeAgent.Step]: the outcome of
    the step when a block ends it, [None] when the loop falls through. *)
Fixpoint stepCodeBlocks (a : CodeAgent) (step : nat) (codeBlocks : list string)
    (w : World) : option outcome :=
  match codeBlocks with
  | [] => None
  | codeBlock :: rest =>
      match extractToolCallFromCode a codeBlock with
      | (_, _, Some err) =>
          Some (nil, Some (wrap "failed to extract tool call from code" err), w)
      | (toolName, args, None) =>
          if negb (bool_decide (toolName = EmptyString))
          then Some (executeAndAddResToMem (tools (base a)) step toolName args w)
          else stepCodeBlocks a step rest w
      end
  end.

Definition CodeAgent_Step (a : CodeAgent) : Stepper := λ step w,
  match models.Generate (model (base a)) (modelCalls w) (stepMessages step w) with
  | inr err => (nil, Some (wrap "failed to generate response" err), tick w)
  | inl response =>
      let w :=
        appendMessage step
          {| models.Role := models.RoleAssistant; models.Content := response;
             models.Name := EmptyString |} (tick w) in
      match stepCodeBlocks a step (extractCodeBlocks response) w with
      | Some out => out
      | None =>
          match extractToolCall response with
          | (_, _, Some err) =>
              (nil, Some (wrap "failed to extract tool call" err), w)
          | (toolName, args, None) =>
              if bool_decide (toolName = EmptyString)
              then (AString response, None, w)
              else executeAndAddResToMem (tools (base a)) step toolName args w
          end
      end
  end.

(** [CodeAgent] has no [Run] of its own: [agent.Run] is the promoted
    method [BaseAgent.Run] of the embedded agent, whose receiver is the
    [*BaseAgent]. *)
Definition CodeAgent_Run (a : CodeAgent) (task : string) (w : World) : outcome :=
  BaseAgent_Run (base a) task w.

End agents.

(* ===================================================================== *)
(** * Test doubles and scenarios *)
(* ===================================================================== *)

(** The mocks of the agents' test file, and the inputs the properties
    below are exercised on. *)
Module mocks.
Import memory agents.

(** [MockModel]: [Generate] returns [generateError] when it is set and
    [generateResponse] otherwise; [GenerateWithTools] calls [Generate]. *)
Definition MockModel (generateResponse : string) (generateError : error)
    : models.Model :=
  let Generate := λ (_ : nat) (_ : list models.Message),
    match generateError with
    | Some err => inr err
    | None => inl generateResponse
    end in
  {| models.Generate := Generate;
     models.GenerateWithTools := λ n messages _, Generate n messages |}.

(** [MockTool] *)
Definition MockTool (name description : string) (output : any) (err : error)
    : tools.Tool :=
  {| tools.Name := name;
     tools.Description := description;
     tools.Schema :=
       {| tools.Type_ := "object";
          tools.Properties :=
            {[ "arg1" := {| tools.pType := "string";
                            tools.pDescription := "Test argument";
                            tools.Enum := []; tools.Default := nil |} ]};
          tools.Required := [] |};
     tools.Execute := λ _,
       match err with
       | Some e => (nil, Some e)
       | None => (output, None)
       end |}.

Definition test_tool : tools.Tool :=
  MockTool "test_tool" "A test tool" (AString "tool output") None.

Definition failing_tool : tools.Tool :=
  MockTool "test_tool" "A test tool" nil (Some "boom").

Definition add_tool : tools.Tool :=
  MockTool "add" "Adds two numbers" (AInt 3) None.

(** The JSON object with [tool] set to [test_tool] and [args] to the
    object that maps [arg1] to [value1]. *)
Definition callJSON : string :=
  "{" +:+ quoted "tool" +:+ ": " +:+ quoted "test_tool" +:+ ", " +:+
  quoted "args" +:+ ": {" +:+ quoted "arg1" +:+ ": " +:+ quoted "value1" +:+ "}}".

(** That object in a fenced block tagged [json]. *)
Definition callBlock : string :=
  "```json" +:+ nl +:+ callJSON +:+ nl +:+ "```".

Definition callArgs : gmap string any := {[ "arg1" := AString "value1" ]}.

(** The block of the code agent. *)
Definition addCode : string := "result = add(a=1, b=2)" +:+ nl.
Definition addBlock : string := "```go" +:+ nl +:+ addCode +:+ "```".

(** The code agent [NewCodeAgent] builds from the tool [add], a model
    that answers [response] and no option. *)
Definition codeAgent (response : string) : CodeAgent :=
  {| base := {| tools := [add_tool];
                model := MockModel response None;
                maxSteps := 20; systemPrompt := codeSystemPrompt;
                name := "CodeAgent";
                description :=
                  "An agent specialized in generating and executing code";
                stepper := None |} |}.

(** The tool-calling agent [NewToolCallingAgent] builds from the tool
    [tool], a model that answers [response] and any options. *)
Definition toolCallingAgent (tool : tools.Tool) (response : string)
    : ToolCallingAgent :=
  {| tca_tools := [tool];
     tca_model := MockModel response None;
     tca_maxSteps := 20; tca_systemPrompt := defaultSystemPrompt;
     tca_name := "ToolCallingAgent";
     tca_description :=
       "An agent specialized in calling tools and handling their output" |}.

(** A fresh state: nothing allocated, an empty memory, no model call
    made. *)
Definition world0 : World := {| heap := []; mem := NewMemory; modelCalls := 0 |}.

(** The four ways of opening a step. *)
Inductive StepKind : Type :=
  | SystemPrompt (systemPrompt : string)
  | Task (task : string)
  | Action (input : string)
  | Planning (facts plan : string).

Definition addStep (k : StepKind) (messages : list models.Message) (w : World)
    : nat * World :=
  match k with
  | SystemPrompt systemPrompt => AddSystemPromptStep systemPrompt messages w
  | Task task => AddTaskStep task messages w
  | Action input => AddActionStep input messages w
  | Planning facts plan => AddPlanningStep facts plan messages w
  end.

(** One step opened with its messages and closed. *)
Definition openClose (w : World) (s : StepKind * list models.Message) : World :=
  CompleteCurrentStep (addStep s.1 s.2 w).2.

(** Any call of the memory API. *)
Inductive MemoryOp : Type :=
  | OpAdd (k : StepKind) (messages : list models.Message)
  | OpToolCall (name : string) (args : gmap string any) (output : any) (err : error)
  | OpComplete.

Definition applyOp (w : World) (op : MemoryOp) : World :=
  match op with
  | OpAdd k messages => (addStep k messages w).2
  | OpToolCall name args output err => (AddToolCall name args output err w).2
  | OpComplete => CompleteCurrentStep w
  end.

(** The kinds [goTypeToJSONType] maps to a JSON type. *)
Definition supportedKind (k : reflect.Kind) : bool :=
  match k with
  | reflect.String | reflect.Bool
  | reflect.Int | reflect.Int8 | reflect.Int16 | reflect.Int32 | reflect.Int64
  | reflect.Uint | reflect.Uint8 | reflect.Uint16 | reflect.Uint32
  | reflect.Uint64
  | reflect.Float32 | reflect.Float64
  | reflect.Slice | reflect.Array
  | reflect.Map | reflect.Struct => true
  | _ => false
  end.

(** The names [arg0], ..., [arg(n-1)]. *)
Definition argNames (n : nat) : list string := tools.argName <$> seq 0 n.


(** The types [int], [string] and [error]. *)
Definition intType : reflect.Type_ :=
  {| reflect.kind := reflect.Int; reflect.name := "int";
     reflect.implementsError := false |}.
Definition stringType : reflect.Type_ :=
  {| reflect.kind := reflect.String; reflect.name := "string";
     reflect.implementsError := false |}.
Definition errorType : reflect.Type_ :=
  {| reflect.kind := reflect.Interface; reflect.name := "error";
     reflect.implementsError := true |}.

(** The type of a channel of ints, a kind no JSON type stands for. *)
Definition chanType : reflect.Type_ :=
  {| reflect.kind := reflect.Chan; reflect.name := "chan int";
     reflect.implementsError := false |}.

(** A run-time for the tests, on values of kind int, string and bool:
    a value converts to its own kind, and the JSON round trip takes a
    number literal to an int, a string literal to a string and a
    boolean to a bool, and fails otherwise (so a string does not become
    an int). *)
Definition testRuntime : reflect.Runtime :=
  {| reflect.Zero := λ t,
       match reflect.kind t with
       | reflect.Int => AInt 0
       | reflect.String => AString EmptyString
       | reflect.Bool => ABool false
       | _ => nil
       end;
     reflect.Convert := λ v t,
       match v, reflect.kind t with
       | AInt _, reflect.Int | AString _, reflect.String
       | ABool _, reflect.Bool => Some v
       | _, _ => None
       end;
     reflect.Marshal := λ v,
       match v with
       | AString s => inl (quoted s)
       | AInt z => inl (pretty z)
       | ABool b => inl (if b then "true" else "false")
       | _ => inr "json: unsupported value"
       end;
     reflect.UnmarshalInto := λ data t,
       match json.parse data, reflect.kind t with
       | Some (json.Str s), reflect.String => inl (AString s)
       | Some (json.Number n), reflect.Int =>
           if bool_decide (regexp.run regexp.isDigit n = n) then inl (AInt (scanInt n))
           else inr ("json: cannot unmarshal number into Go value of type "
                     +:+ reflect.name t)
       | Some (json.Bool b), reflect.Bool => inl (ABool b)
       | Some (json.Str _), _ =>
           inr ("json: cannot unmarshal string into Go value of type "
                +:+ reflect.name t)
       | Some (json.Number _), _ =>
           inr ("json: cannot unmarshal number into Go value of type "
                +:+ reflect.name t)
       | Some (json.Bool _), _ =>
           inr ("json: cannot unmarshal bool into Go value of type "
                +:+ reflect.name t)
       | _, _ => inr "json: cannot unmarshal into Go value"
       end |}.

(** [func(a, b int) int { return a + b }] *)
Definition addFn : reflect.Function :=
  {| reflect.typeOf := {| reflect.ins := [intType; intType];
                          reflect.outs := [intType] |};
     reflect.Call := λ callArgs,
       match callArgs with
       | [AInt a; AInt b] => [AInt (a + b)]
       | _ => [AInt 0]
       end |}.


(** [func() error { return errors.New("boom") }] *)
Definition errFn : reflect.Function :=
  {| reflect.typeOf := {| reflect.ins := []; reflect.outs := [errorType] |};
     reflect.Call := λ _, [AError "boom"] |}.

Definition toolOf (name : string) (fn : reflect.Function) : tools.FunctionTool :=
  {| tools.name := name; tools.description := "a tool"; tools.fn := fn;
     tools.schema :=
       match tools.createSchemaFromFunction (reflect.typeOf fn) with
       | inl schema => schema
       | inr _ => {| tools.Type_ := "object"; tools.Properties := ∅;
                     tools.Required := [] |}
       end |}.

(** The value of [Type] a step of each kind is opened with. *)
Definition kindName (k : StepKind) : string :=
  match k with
  | SystemPrompt _ => "system_prompt"
  | Task _ => "task"
  | Action _ => "action"
  | Planning _ _ => "planning"
  end.

(** The step value an [Add...Step] call stores, and what a call of the
    API adds to the list [Steps]. *)
Definition stepOf (k : StepKind) (messages : list models.Message) : Step :=
  {| Type_ := kindName k; Messages := messages; EndTimestamp := false;
     ToolCalls := [] |}.

Definition opSteps (op : MemoryOp) : list Step :=
  match op with
  | OpAdd k messages => [stepOf k messages]
  | _ => []
  end.

(** The record [AddToolCall] builds from its arguments. *)
Definition recordOf (call : string * gmap string any * any * error) : ToolCall :=
  let '(name, args, output, err) := call in
  {| Name := name; Arguments := args; Output := output;
     Error := default EmptyString err |}.

Definition addToolCalls (calls : list (string * gmap string any * any * error))
    (w : World) : World :=
  fold_left (λ w '(name, args, output, err),
               (AddToolCall name args output err w).2) calls w.

(** The options the package provides. *)
Inductive providedOption : Option → Prop :=
  | provided_WithMaxSteps n : providedOption (WithMaxSteps n)
  | provided_WithSystemPrompt p : providedOption (WithSystemPrompt p)
  | provided_WithName n : providedOption (WithName n)
  | provided_WithDescription d : providedOption (WithDescription d).

(** An option list asks for a budget that is not positive. *)
Definition asksBadBudget (opts : list Option) : Prop :=
  Exists (λ opt, ∃ n, n ≤ 0 ∧ opt = WithMaxSteps n) opts.

(** A system message. *)
Definition systemMessage (content : string) : models.Message :=
  {| models.Role := models.RoleSystem; models.Content := content;
     models.Name := EmptyString |}.

(** A strategy that never answers and never fails. *)
Definition idleStepper : Stepper := λ _ w, (nil, None, w).

(** No step kept in [Steps] holds a tool call. *)
Definition noToolCalls (w : World) : Prop :=
  Forall (λ s, ToolCalls s = []) (Steps (mem w)).

End mocks.

(* ===================================================================== *)
(** * Properties of package memory *)
(* ===================================================================== *)

Module memory_facts.
Import memory mocks.

Lemma fold_left_app_concat {A B : Type} (f : A → list B) (l : list A) (acc : list B) :
  fold_left (λ acc x, acc ++ f x) l acc = acc ++ concat (f <$> l).
Proof.
  revert acc. induction l as [|x l IH]; intros acc; simpl.
  - by rewrite app_nil_r.
  - by rewrite IH, <- app_assoc.
Qed.

Lemma GetMessages_concat w : GetMessages w = concat (Messages <$> Steps (mem w)).
Proof. unfold GetMessages. by rewrite fold_left_app_concat. Qed.

Lemma GetToolCalls_concat w : GetToolCalls w = concat (ToolCalls <$> Steps (mem w)).
Proof. unfold GetToolCalls. by rewrite fold_left_app_concat. Qed.

(** What each call of the API does to the list [Steps]. *)

Lemma Steps_openStep s w : Steps (mem (openStep s w).2) = Steps (mem w) ++ [s].
Proof. reflexivity. Qed.

Lemma Steps_addStep k messages w :
  ∃ ty, Steps (mem (addStep k messages w).2)
        = Steps (mem w) ++ [ {| Type_ := ty; Messages := messages;
                                EndTimestamp := false; ToolCalls := [] |} ].
Proof. destruct k; eexists; reflexivity. Qed.

Lemma Steps_AddToolCall name args output err w :
  Steps (mem (AddToolCall name args output err w).2) = Steps (mem w).
Proof. unfold AddToolCall. by destruct (curStep (mem w)). Qed.

Lemma Steps_CompleteCurrentStep w :
  Steps (mem (CompleteCurrentStep w)) = Steps (mem w).
Proof. unfold CompleteCurrentStep. by destruct (curStep (mem w)). Qed.

Lemma curStep_CompleteCurrentStep w : curStep (mem (CompleteCurrentStep w)) = None.
Proof.
  unfold CompleteCurrentStep. by destruct (curStep (mem w)) eqn:E.
Qed.

Lemma Steps_openClose w s :
  ∃ ty, Steps (mem (openClose w s))
        = Steps (mem w) ++ [ {| Type_ := ty; Messages := s.2;
                                EndTimestamp := false; ToolCalls := [] |} ].
Proof.
  unfold openClose. rewrite Steps_CompleteCurrentStep. apply Steps_addStep.
Qed.

Lemma GetMessages_openClose_list steps w :
  GetMessages (fold_left openClose steps w) = GetMessages w ++ concat (steps.*2).
Proof.
  revert w. induction steps as [|s steps IH]; intros w; simpl.
  - by rewrite app_nil_r.
  - rewrite IH. rewrite !GetMessages_concat.
    destruct (Steps_openClose w s) as [ty ->].
    rewrite fmap_app, concat_app. simpl. by rewrite app_nil_r, <- app_assoc.
Qed.

(** C6.  Starting from a new memory, after any number of steps have been
    opened (as system-prompt, task, action or planning step, each with
    its own list of messages) and closed, [GetMessages] is the
    concatenation of the lists supplied, in the order in which the steps
    were opened, whatever the kinds of the steps. *)
Theorem GetMessages_after_steps
    (steps : list (StepKind * list models.Message)) (h : list Step) (n : nat) :
  GetMessages (fold_left openClose steps
                 {| heap := h; mem := NewMemory; modelCalls := n |})
  = concat (steps.*2).
Proof. by rewrite GetMessages_openClose_list. Qed.

Lemma noToolCalls_applyOp w op : noToolCalls w → noToolCalls (applyOp w op).
Proof.
  unfold noToolCalls. intros H. destruct op as [k messages| |]; simpl.
  - destruct (Steps_addStep k messages w) as [ty ->].
    apply Forall_app. split; [done|]. by constructor.
  - by rewrite Steps_AddToolCall.
  - by rewrite Steps_CompleteCurrentStep.
Qed.

Lemma noToolCalls_GetToolCalls w : noToolCalls w → GetToolCalls w = [].
Proof.
  unfold noToolCalls. rewrite GetToolCalls_concat.
  induction 1 as [|s l Hs _ IH]; [done|].
  rewrite fmap_cons. simpl. rewrite Hs. exact IH.
Qed.

Lemma noToolCalls_ops ops w : noToolCalls w → noToolCalls (fold_left applyOp ops w).
Proof.
  revert w. induction ops as [|op ops IH]; intros w H; simpl; [done|].
  by apply IH, noToolCalls_applyOp.
Qed.

End memory_facts.

(* ===================================================================== *)
(** * Properties of package tools *)
(* ===================================================================== *)

Module tools_facts.
Import tools mocks.

Lemma argName_inj : Inj (=) (=) argName.
Proof.
  intros i j H. unfold argName in H.
  apply (inj (String.app "arg")) in H. by apply (inj pretty) in H.
Qed.

Lemma NoDup_argNames n : NoDup (argNames n).
Proof.
  unfold argNames. apply NoDup_fmap_2; [exact argName_inj|apply NoDup_seq].
Qed.

Lemma goTypeToJSONType_supported t :
  supportedKind (reflect.kind t) = true → ∃ jsonType, goTypeToJSONType t = inl jsonType.
Proof.
  unfold goTypeToJSONType. destruct (reflect.kind t); simpl; intros H;
    try discriminate; eauto.
Qed.

Lemma goTypeToJSONType_unsupported t :
  supportedKind (reflect.kind t) = false →
  goTypeToJSONType t = inr ("unsupported type: " +:+ reflect.name t).
Proof.
  unfold goTypeToJSONType. destruct (reflect.kind t); simpl; intros H;
    try discriminate; eauto.
Qed.

(** The loop invariant of [createSchemaFromFunction]. *)
Lemma schemaLoop_supported params : ∀ i properties required,
  Forall (λ t, supportedKind (reflect.kind t) = true) params →
  ∃ properties',
    schemaLoop i params properties required
    = inl (properties', required ++ (argName <$> seq i (length params)))
    ∧ dom properties'
      = dom properties ∪ list_to_set (argName <$> seq i (length params)).
Proof.
  induction params as [|t params IH]; intros i properties required Hall; simpl.
  - exists properties. rewrite app_nil_r. split; [done|set_solver].
  - inversion Hall as [|?? Ht Hrest]; subst.
    destruct (goTypeToJSONType_supported t Ht) as [jsonType Hj]. rewrite Hj.
    edestruct (IH (S i)) as (properties' & -> & Hdom); [exact Hrest|].
    exists properties'. split.
    + by rewrite <- app_assoc.
    + rewrite Hdom, dom_insert_L. set_solver.
Qed.

(** C7.  For a function whose [N] parameters are all of a kind the schema
    supports (string, bool, an integer kind, a float kind, slice or
    array, map or struct), the schema derived from its type has type
    [object], its properties are exactly the [N] names [arg0], ...,
    [arg(N-1)], and its required list is these [N] names in declaration
    order; the tool built from the function carries that schema. *)
Theorem schema_of_function (fnType : reflect.FuncType) :
  Forall (λ t, supportedKind (reflect.kind t) = true) (reflect.ins fnType) →
  ∃ schema,
    createSchemaFromFunction fnType = inl schema
    ∧ Type_ schema = "object"
    ∧ Required schema = argNames (reflect.NumIn fnType)
    ∧ dom (Properties schema) = list_to_set (argNames (reflect.NumIn fnType))
    ∧ size (Properties schema) = reflect.NumIn fnType
    ∧ length (Required schema) = reflect.NumIn fnType
    ∧ NoDup (Required schema)
    ∧ ∀ rt name description fn,
        reflect.typeOf fn = fnType → name ≠ EmptyString →
        description ≠ EmptyString →
        ∃ tool, NewFunctionTool name description fn = inl tool
                ∧ Schema (asTool rt tool) = schema.
Proof.
  intros Hall. unfold createSchemaFromFunction.
  destruct (schemaLoop_supported (reflect.ins fnType) 0 ∅ [] Hall)
    as (properties & Hloop & Hdom).
  rewrite Hloop. eexists. split; [reflexivity|]. simpl.
  assert (dom properties = list_to_set (argNames (reflect.NumIn fnType))) as Hd.
  { rewrite Hdom, dom_empty_L. unfold argNames, reflect.NumIn. set_solver. }
  split_and!; try done.
  - rewrite <- size_dom, Hd, size_list_to_set by apply NoDup_argNames.
    unfold argNames. by rewrite length_fmap, length_seq.
  - by rewrite length_fmap, length_seq.
  - apply NoDup_argNames.
  - intros rt name description fn Hfn Hn Hdesc. unfold NewFunctionTool.
    rewrite !bool_decide_eq_false_2 by done.
    unfold createSchemaFromFunction. rewrite Hfn, Hloop.
    eexists. split; reflexivity.
Qed.

Lemma schema_of_function_witness :
  ∃ tool, NewFunctionTool "add" "Adds two numbers" addFn = inl tool
          ∧ Required (Schema (asTool testRuntime tool)) = ["arg0"; "arg1"]
          ∧ size (Properties (Schema (asTool testRuntime tool))) = 2%nat.
Proof.
  destruct (schema_of_function (reflect.typeOf addFn))
    as (schema & _ & _ & Hreq & _ & Hsize & _ & _ & Htool).
  { repeat constructor. }
  destruct (Htool testRuntime "add" "Adds two numbers" addFn eq_refl)
    as (tool & Hnew & Hschema); [done..|].
  exists tool. rewrite Hschema, Hreq, Hsize. done.
Defined.

(** ** Binding the arguments *)



(** ** Execute *)






(** C10.  When the function wrapped by a tool has exactly one result,
    and the type of this result implements [error], [Execute] returns
    the value the function returned, nil or not, as its result and
    reports no failure: the failure on an error result is for functions
    with more than one result. *)
Theorem Execute_single_error_result (rt : reflect.Runtime) (t : FunctionTool)
    (args : gmap string any) (ty : reflect.Type_) (callArgs : list any) (r : any) :
  reflect.outs (reflect.typeOf (fn t)) = [ty] →
  reflect.implementsError ty = true →
  prepareArguments rt (reflect.typeOf (fn t)) args = inl callArgs →
  reflect.Call (fn t) callArgs = [r] →
  FunctionTool_Execute rt t args = (r, None).
Proof.
  intros Houts _ Hprep Hcall. unfold FunctionTool_Execute.
  rewrite Hprep, Hcall. unfold reflect.NumOut. rewrite Houts. reflexivity.
Qed.

Lemma Execute_single_error_result_witness :
  FunctionTool_Execute testRuntime (toolOf "err" errFn) ∅ = (AError "boom", None).
Proof.
  apply (Execute_single_error_result testRuntime (toolOf "err" errFn) ∅
           errorType [] (AError "boom")); reflexivity.
Defined.

End tools_facts.

(* ===================================================================== *)
(** * Properties of package agents: the loop and the transcript *)
(* ===================================================================== *)

Module loop_facts.
Import memory agents mocks memory_facts.

(** ** What a step strategy does to the memory *)

Lemma mem_update p f w : mem (update p f w) = mem w.
Proof. reflexivity. Qed.

Lemma mem_AddToolCall name args output err w :
  mem (AddToolCall name args output err w).2 = mem w.
Proof. unfold AddToolCall. by destruct (curStep (mem w)). Qed.

Lemma mem_executeToolCall tools step toolName args w :
  mem (executeToolCall tools step toolName args w).2 = mem w.
Proof.
  unfold executeToolCall. destruct (findTool tools toolName) as [tool|]; [|done].
  destruct (tools.Execute tool args) as [result [e|]]; simpl;
    apply mem_AddToolCall.
Qed.

Lemma mem_executeAndAddResToMem tools step toolName args w :
  mem (executeAndAddResToMem tools step toolName args w).2 = mem w.
Proof.
  unfold executeAndAddResToMem.
  pose proof (mem_executeToolCall tools step toolName args w) as H.
  destruct (executeToolCall tools step toolName args w) as [[result [e|]] w'];
    simpl in *; done.
Qed.

Lemma mem_ToolCallingAgent_Step a step w :
  mem (ToolCallingAgent_Step a step w).2 = mem w.
Proof.
  unfold ToolCallingAgent_Step.
  destruct (models.GenerateWithTools _ _ _ _) as [response|]; [|done].
  destruct (extractToolCall response) as [[toolName args] [e|]]; [done|].
  case_bool_decide; [done|]. by rewrite mem_executeAndAddResToMem.
Qed.

Lemma mem_stepCodeBlocks a step codeBlocks w out :
  stepCodeBlocks a step codeBlocks w = Some out → mem out.2 = mem w.
Proof.
  induction codeBlocks as [|b bs IH]; simpl; [done|].
  destruct (extractToolCallFromCode a b) as [[toolName args] [e|]].
  - by intros [= <-].
  - case_bool_decide; simpl; [done|].
    intros [= <-]. apply mem_executeAndAddResToMem.
Qed.

Lemma mem_CodeAgent_Step a step w : mem (CodeAgent_Step a step w).2 = mem w.
Proof.
  unfold CodeAgent_Step.
  destruct (models.Generate _ _ _) as [response|]; [|done].
  destruct (stepCodeBlocks _ _ _ _) as [out|] eqn:Hb.
  - by rewrite (mem_stepCodeBlocks _ _ _ _ _ Hb).
  - destruct (extractToolCall response) as [[toolName args] [e|]]; [done|].
    case_bool_decide; [done|]. by rewrite mem_executeAndAddResToMem.
Qed.

(** ** The loop *)

Lemma noToolCalls_mem w w' : mem w' = mem w → noToolCalls w → noToolCalls w'.
Proof. unfold noToolCalls. by intros ->. Qed.

Lemma noToolCalls_Complete w : noToolCalls w → noToolCalls (CompleteCurrentStep w).
Proof. apply (noToolCalls_applyOp w OpComplete). Qed.

Lemma noToolCalls_startRun systemPrompt task w :
  noToolCalls (startRun systemPrompt task w).
Proof.
  unfold startRun. apply noToolCalls_Complete.
  apply (noToolCalls_applyOp _ (OpAdd (Task task) _)).
  apply noToolCalls_Complete.
  apply (noToolCalls_applyOp _ (OpAdd (SystemPrompt systemPrompt) _)).
  constructor.
Qed.

Lemma runLoop_noToolCalls systemPrompt tools (Step : Stepper) task :
  (∀ p w, mem (Step p w).2 = mem w) →
  ∀ n w, noToolCalls w →
    noToolCalls (runLoop systemPrompt tools Step task n w).2.
Proof.
  intros HStep. induction n as [|n IH]; intros w Hw; simpl; [done|].
  set (w1 := {| heap := _; mem := _; modelCalls := _ |}).
  assert (noToolCalls w1) as Hw1.
  { apply (noToolCalls_applyOp w (OpAdd (Action task)
             (buildMessages systemPrompt tools w))), Hw. }
  pose proof (HStep (length (heap w)) w1) as Hmem.
  destruct (Step (length (heap w)) w1) as [[result err] w2]. simpl in Hmem.
  assert (noToolCalls (CompleteCurrentStep w2)) as Hw2.
  { apply noToolCalls_Complete. by apply (noToolCalls_mem w1). }
  destruct err; [done|]. destruct (is_nil result); simpl; [|done].
  by apply IH.
Qed.

Lemma run_noToolCalls systemPrompt tools maxSteps (Step : Stepper) task w :
  (∀ p w, mem (Step p w).2 = mem w) →
  noToolCalls (run systemPrompt tools maxSteps Step task w).2.
Proof.
  intros HStep. unfold run.
  pose proof (runLoop_noToolCalls systemPrompt tools Step task HStep
                (Z.to_nat maxSteps) _ (noToolCalls_startRun systemPrompt task w)) as H.
  destruct (runLoop _ _ _ _ _ _) as [[finalAnswer lastError] w'].
  by destruct (is_nil finalAnswer && bool_decide (lastError = None)).
Qed.

(** A strategy that never answers and never fails exhausts the budget. *)
Lemma runLoop_exhausts systemPrompt tools (Step : Stepper) task :
  (∀ p w, (Step p w).1 = (nil, None)) →
  ∀ n w, (runLoop systemPrompt tools Step task n w).1 = (nil, None).
Proof.
  intros HStep. induction n as [|n IH]; intros w; simpl; [done|].
  set (w1 := {| heap := _; mem := _; modelCalls := _ |}).
  pose proof (HStep (length (heap w)) w1) as H.
  destruct (Step (length (heap w)) w1) as [[result err] w2].
  simpl in H. injection H as -> ->. simpl. apply IH.
Qed.

Lemma run_exhausts systemPrompt tools maxSteps (Step : Stepper) task w :
  (∀ p w, (Step p w).1 = (nil, None)) →
  (run systemPrompt tools maxSteps Step task w).1
  = (nil, Some ("agent reached maximum number of steps (" +:+ pretty maxSteps
                +:+ ") without finding an answer")).
Proof.
  intros HStep. unfold run.
  pose proof (runLoop_exhausts systemPrompt tools Step task HStep
                (Z.to_nat maxSteps) (startRun systemPrompt task w)) as H.
  destruct (runLoop _ _ _ _ _ _) as [[finalAnswer lastError] w'].
  simpl in H. by injection H as -> ->.
Qed.

(** ** Dispatch *)

Lemma extractToolCall_callBlock :
  extractToolCall callBlock = ("test_tool", callArgs, None).
Proof. vm_compute. reflexivity. Qed.

(** What [executeAndAddResToMem] does once the tool is found. *)
Lemma executeAndAddResToMem_found tools step toolName args w tool :
  findTool tools toolName = inl tool →
  executeAndAddResToMem tools step toolName args w
  = match tools.Execute tool args with
    | (result, Some e) =>
        (nil, Some (wrap "failed to execute tool call" e),
         (AddToolCall toolName args result (Some e) w).2)
    | (result, None) =>
        (nil, None,
         appendMessage step
           {| models.Role := models.RoleTool; models.Name := toolName;
              models.Content := Sprint result |}
           (AddToolCall toolName args result None w).2)
    end.
Proof.
  intros Hfind. unfold executeAndAddResToMem, executeToolCall. rewrite Hfind.
  by destruct (tools.Execute tool args) as [result [e|]].
Qed.

Lemma ToolCallingAgent_Step_callBlock a tool :
  (∀ n messages decls,
     models.GenerateWithTools (tca_model a) n messages decls = inl callBlock) →
  findTool (tca_tools a) "test_tool" = inl tool →
  (tools.Execute tool callArgs).2 = None →
  ∀ p w, (ToolCallingAgent_Step a p w).1 = (nil, None).
Proof.
  intros Hmodel Hfind Hexec p w. unfold ToolCallingAgent_Step.
  rewrite Hmodel, extractToolCall_callBlock.
  rewrite bool_decide_eq_false_2 by done.
  rewrite (executeAndAddResToMem_found _ _ _ _ _ tool Hfind).
  destruct (tools.Execute tool callArgs) as [result err]. simpl in Hexec.
  by subst err.
Qed.

(** ** The claims on the loop *)

(** C1, on the code.  A tool call that is dispatched is recorded by
    [AddToolCall] in the cell of the open step, with its name, its
    arguments, its result and the description of its failure, and the
    run aborts with the failure of the tool; but the record is in none
    of the views: after a run of the tool-calling agent, whatever the
    agent, the task and the state it starts from, [GetToolCalls] is
    empty and no step of [GetSteps] holds a tool call.  The second part
    is the run of an agent whose tool [test_tool] fails, on a model that
    asks for this tool. *)
Theorem tool_call_record_not_in_views :
  (∀ a task w,
     GetToolCalls (ToolCallingAgent_Run a task w).2 = []
     ∧ Forall (λ s, ToolCalls s = []) (GetSteps (ToolCallingAgent_Run a task w).2))
  ∧ ∃ a,
      NewToolCallingAgent [failing_tool] (Some (MockModel callBlock None)) [] = inl a
      ∧ (ToolCallingAgent_Run a "test task" world0).1
        = (nil, Some "failed to execute tool call: boom")
      ∧ ToolCalls <$> heap (ToolCallingAgent_Run a "test task" world0).2 !! 2%nat
        = Some [ {| Name := "test_tool"; Arguments := callArgs; Output := nil;
                    Error := "boom" |} ]
      ∧ GetToolCalls (ToolCallingAgent_Run a "test task" world0).2 = [].
Proof.
  split.
  - intros a task w.
    assert (noToolCalls (ToolCallingAgent_Run a task w).2) as H.
    { apply run_noToolCalls. intros p w'. apply mem_ToolCallingAgent_Step. }
    split; [by apply noToolCalls_GetToolCalls|exact H].
  - eexists. split; [reflexivity|]. split_and!; vm_compute; reflexivity.
Qed.

(** C2, on the code.  [NewToolCallingAgent] applies each option to a
    [BaseAgent] made for the occasion and keeps none of its effects:
    built with [WithMaxSteps(1)], the agent has a budget of 20, and on a
    model that always asks for the tool [test_tool] its run reports the
    exhaustion of a budget of 20.  [NewCodeAgent] does take the budget
    of 1, but installs no step strategy, so that the run of the code
    agent, which is the run of its embedded base agent, fails at its
    first step with the error of [BaseAgent.Step]. *)
Theorem WithMaxSteps_not_honoured :
  (∃ a,
     NewToolCallingAgent [test_tool] (Some (MockModel callBlock None))
       [WithMaxSteps 1] = inl a
     ∧ tca_maxSteps a = 20
     ∧ ∀ task w,
         (ToolCallingAgent_Run a task w).1
         = (nil, Some "agent reached maximum number of steps (20) without finding an answer"))
  ∧ (∃ c,
       NewCodeAgent [add_tool] (Some (MockModel addBlock None))
         [WithMaxSteps 1] = inl c
       ∧ maxSteps (base c) = 1
       ∧ ∀ task w,
           (CodeAgent_Run c task w).1
           = (nil, Some "Step method must be implemented by derived agents")).
Proof.
  split.
  - eexists. split; [reflexivity|]. split; [reflexivity|]. intros task w.
    unfold ToolCallingAgent_Run.
    rewrite run_exhausts; [reflexivity|].
    apply (ToolCallingAgent_Step_callBlock _ test_tool); reflexivity.
  - eexists. split; [reflexivity|]. split; [reflexivity|]. intros task w.
    reflexivity.
Qed.

(** C9, as the code has it.  In the loop shared by the agents, when the
    strategy returns no failure for the action step just opened: the
    step is closed; a result that is not nil, be it the empty string,
    ends the loop, and the run reports it as the final answer with no
    failure; a nil result makes the loop go on with the next
    iteration. *)
Theorem loop_iteration (systemPrompt : string) (tools : list tools.Tool)
    (Step : Stepper) (task : string) (n : nat) (w : World)
    (result : any) (w2 : World) :
  let opened := AddActionStep task (buildMessages systemPrompt tools w) w in
  Step opened.1 opened.2 = (result, None, w2) →
  curStep (mem (CompleteCurrentStep w2)) = None
  ∧ (result ≠ nil →
     runLoop systemPrompt tools Step task (S n) w
     = (result, None, CompleteCurrentStep w2)
     ∧ ∀ maxSteps w0,
         w = startRun systemPrompt task w0 → Z.to_nat maxSteps = S n →
         run systemPrompt tools maxSteps Step task w0
         = (result, None, CompleteCurrentStep w2))
  ∧ (result = nil →
     runLoop systemPrompt tools Step task (S n) w
     = runLoop systemPrompt tools Step task n (CompleteCurrentStep w2)).
Proof.
  intros opened HStep.
  assert (runLoop systemPrompt tools Step task (S n) w
          = if negb (is_nil result) then (result, None, CompleteCurrentStep w2)
            else runLoop systemPrompt tools Step task n (CompleteCurrentStep w2))
    as Hloop.
  { simpl. subst opened. simpl in HStep. by rewrite HStep. }
  split_and!.
  - apply curStep_CompleteCurrentStep.
  - intros Hres. assert (is_nil result = false) as Hnil by by destruct result.
    rewrite Hnil in Hloop. split; [exact Hloop|].
    intros maxSteps w0 -> Hn. unfold run. rewrite Hn, Hloop. simpl.
    by rewrite Hnil.
  - intros ->. exact Hloop.
Qed.

Lemma loop_iteration_witness :
  ∃ a w2,
    NewToolCallingAgent [test_tool] (Some (MockModel "This is a final answer" None)) []
    = inl a
    ∧ ToolCallingAgent_Run a "test task" world0
      = (AString "This is a final answer", None, CompleteCurrentStep w2).
Proof.
  eexists. eexists. split; [reflexivity|].
  eapply (loop_iteration defaultSystemPrompt [test_tool] _ "test task" 19%nat
            (startRun defaultSystemPrompt "test task" world0)
            (AString "This is a final answer")).
  - vm_compute. reflexivity.
  - discriminate.
  - reflexivity.
  - reflexivity.
Defined.

(** The claim C9 as stated fails on the code: the empty string the
    model answers is returned by the strategy as a string, which is not
    nil, and ends the run at its first iteration, with the three steps
    system prompt, task and action in the memory. *)
Lemma loop_iteration_counterexample :
  ∃ a,
    NewToolCallingAgent [test_tool] (Some (MockModel EmptyString None)) [] = inl a
    ∧ (ToolCallingAgent_Step a 0%nat (AddActionStep "test task" [] world0).2).1
      = (AString EmptyString, None)
    ∧ (ToolCallingAgent_Run a "test task" world0).1 = (AString EmptyString, None)
    ∧ Type_ <$> GetSteps (ToolCallingAgent_Run a "test task" world0).2
      = ["system_prompt"; "task"; "action"].
Proof. eexists. split; [reflexivity|]. split_and!; vm_compute; reflexivity. Qed.

End loop_facts.

(* ===================================================================== *)
(** * Properties of the response parsers *)
(* ===================================================================== *)

Module parser_facts.
Import memory agents mocks loop_facts.

(** ** Index *)

Lemma HasPrefix_app s a b : HasPrefix s (a +:+ b) = true → HasPrefix s a = true.
Proof.
  revert s. induction a as [|c a IH]; intros s; [done|].
  change (String c a +:+ b) with (String c (a +:+ b)). simpl.
  destruct s as [|c' s]; [done|]. case_bool_decide; [|done]. apply IH.
Qed.

Lemma Index_unfold s substr :
  Index s substr
  = if HasPrefix s substr then Some 0%nat
    else match s with
         | EmptyString => None
         | String _ s' => S <$> Index s' substr
         end.
Proof. by destruct s. Qed.

Lemma Index_None s substr :
  Index s substr = None → ∀ k, HasPrefix (from k s) substr = false.
Proof.
  induction s as [|c s IH]; rewrite Index_unfold.
  - destruct (HasPrefix EmptyString substr) eqn:E; [done|].
    intros _ [|k]; done.
  - destruct (HasPrefix (String c s) substr) eqn:E; [done|].
    destruct (Index s substr) eqn:Hs; [done|]. intros _ [|k]; [done|].
    by apply IH.
Qed.

Lemma Index_None_of_prefixes s substr :
  (∀ k, HasPrefix (from k s) substr = false) → Index s substr = None.
Proof.
  induction s as [|c s IH]; intros H; rewrite Index_unfold.
  - by rewrite (H 0%nat : HasPrefix EmptyString substr = false).
  - rewrite (H 0%nat : HasPrefix (String c s) substr = false).
    rewrite IH; [done|]. intros k. apply (H (S k)).
Qed.

(** A string without the shorter pattern is without the longer one. *)
Lemma Index_None_app s a b : Index s a = None → Index s (a +:+ b) = None.
Proof.
  intros H. apply Index_None_of_prefixes. intros k.
  destruct (HasPrefix (from k s) (a +:+ b)) eqn:E; [|done].
  apply HasPrefix_app in E. by rewrite (Index_None s a H k) in E.
Qed.

Lemma extractJSON_no_fence s : Index s "```" = None → extractJSON s = EmptyString.
Proof.
  intros H. unfold extractJSON.
  rewrite (Index_None_app s "```" "json" H : Index s "```json" = None).
  by rewrite H.
Qed.

(** ** The direct strategy *)




(** A response that starts with the fenced call is dispatched, whatever
    follows the block. *)
Lemma extractToolCall_leading_block post :
  extractToolCall (callBlock +:+ post) = ("test_tool", callArgs, None).
Proof. vm_compute. reflexivity. Qed.

Lemma ToolCallingAgent_Step_leading_block a step w post tool :
  models.GenerateWithTools (tca_model a) (modelCalls w) (stepMessages step w)
    (buildToolsSchema (tca_tools a)) = inl (callBlock +:+ post) →
  findTool (tca_tools a) "test_tool" = inl tool →
  ToolCallingAgent_Step a step w
  = let w' :=
      appendMessage step
        {| models.Role := models.RoleAssistant;
           models.Content := callBlock +:+ post;
           models.Name := EmptyString |} (tick w) in
    match tools.Execute tool callArgs with
    | (result, Some e) =>
        (nil, Some (wrap "failed to execute tool call" e),
         (AddToolCall "test_tool" callArgs result (Some e) w').2)
    | (result, None) =>
        (nil, None,
         appendMessage step
           {| models.Role := models.RoleTool; models.Name := "test_tool";
              models.Content := Sprint result |}
           (AddToolCall "test_tool" callArgs result None w').2)
    end.
Proof.
  intros Hmodel Hfind. unfold ToolCallingAgent_Step.
  rewrite Hmodel, extractToolCall_leading_block.
  rewrite bool_decide_eq_false_2 by done.
  by rewrite (executeAndAddResToMem_found _ _ _ _ _ tool Hfind).
Qed.

(** C4, on the code.  With text before the fenced block, here the line
    [Sure:], [extractJSON] slices the response at the offset of the end
    of line counted from the fence, not from the start of the
    response: what it extracts starts inside the fence and is not JSON.
    The step fails with the parse failure, the tool [test_tool] is not
    dispatched and nothing is recorded, and the run aborts. *)
Theorem fenced_call_after_text_not_extracted :
  ∃ a,
    NewToolCallingAgent [test_tool]
      (Some (MockModel ("Sure:" +:+ nl +:+ callBlock) None)) [] = inl a
    ∧ extractJSON ("Sure:" +:+ nl +:+ callBlock) = "`json" +:+ nl +:+ callJSON
    ∧ (ToolCallingAgent_Step a 0%nat (AddActionStep "test task" [] world0).2).1
      = (nil, Some "failed to extract tool call: failed to parse tool call: invalid JSON input")
    ∧ ToolCalls <$>
        heap (ToolCallingAgent_Step a 0%nat (AddActionStep "test task" [] world0).2).2
        !! 0%nat = Some []
    ∧ (ToolCallingAgent_Run a "test task" world0).1
      = (nil, Some "failed to extract tool call: failed to parse tool call: invalid JSON input").
Proof. eexists. split; [reflexivity|]. split_and!; vm_compute; reflexivity. Qed.

(** ** The code-block strategy *)

Lemma findAll_none {G} (matchAt : string → option (G * nat)) s :
  (∀ k, matchAt (from k s) = None) → regexp.findAll matchAt 0 s = [].
Proof.
  induction s as [|c s IH]; intros H; simpl.
  - by rewrite (H 0%nat : matchAt EmptyString = None).
  - rewrite (H 0%nat : matchAt (String c s) = None). apply IH.
    intros k. apply (H (S k)).
Qed.

Lemma codeBlockAt_no_fence s : HasPrefix s "```" = false → regexp.codeBlockAt s = None.
Proof. unfold regexp.codeBlockAt. by intros ->. Qed.

Lemma extractCodeBlocks_no_fence s : Index s "```" = None → extractCodeBlocks s = [].
Proof.
  intros H. apply findAll_none. intros k.
  apply codeBlockAt_no_fence, (Index_None s _ H).
Qed.

(** Text without a backquote before the first block is passed over. *)
Lemma extractCodeBlocks_skip pre s :
  Contains pre "`" = false → extractCodeBlocks (pre +:+ s) = extractCodeBlocks s.
Proof.
  unfold extractCodeBlocks, Contains.
  induction pre as [|c pre IH]; intros H; [done|].
  rewrite Index_unfold in H. simpl in H.
  change (String c pre +:+ s) with (String c (pre +:+ s)).
  case_bool_decide as Hc; [done|].
  destruct (Index pre "`") eqn:Hp; [done|].
  simpl. rewrite codeBlockAt_no_fence.
  - by apply IH.
  - simpl. by rewrite bool_decide_eq_false_2.
Qed.











End parser_facts.


(* ===================================================================== *)
(** * Further properties of package memory *)
(* ===================================================================== *)

Module memory_more.
Import memory mocks memory_facts.

Lemma Steps_applyOp w op : Steps (mem (applyOp w op)) = Steps (mem w) ++ opSteps op.
Proof.
  destruct op as [k messages| |]; simpl.
  - by destruct k.
  - by rewrite Steps_AddToolCall, app_nil_r.
  - by rewrite Steps_CompleteCurrentStep, app_nil_r.
Qed.

Lemma Steps_ops ops w :
  Steps (mem (fold_left applyOp ops w)) = Steps (mem w) ++ (ops ≫= opSteps).
Proof.
  revert w. induction ops as [|op ops IH]; intros w; simpl.
  - by rewrite app_nil_r.
  - by rewrite IH, Steps_applyOp, <- app_assoc.
Qed.

(** X1.  Whatever calls of the memory API are made on a new memory, in any
    order, [GetSteps] is the list of the steps opened, in the order in
    which they were opened, each with the type of its kind, the messages
    it was opened with, no end time and no tool call, and [GetMessages] is
    the concatenation of the messages the steps were opened with: a tool
    call or the closing of a step changes neither view. *)
Theorem views_after_operations (ops : list MemoryOp) (h : list Step) (n : nat) :
  let w := fold_left applyOp ops {| heap := h; mem := NewMemory; modelCalls := n |} in
  GetSteps w = ops ≫= opSteps
  ∧ GetMessages w = ops ≫= (λ op, opSteps op ≫= Messages).
Proof.
  intros w. unfold GetSteps. subst w. rewrite GetMessages_concat, Steps_ops.
  simpl. split; [done|].
  induction ops as [|op ops IH]; [done|].
  rewrite !bind_cons, fmap_app, concat_app, IH. f_equal.
  destruct op; simpl; by rewrite ?app_nil_r.
Qed.

(** X2.  Whatever calls of the memory API are made on a new memory,
    [GetToolCalls] returns the empty list: the records [AddToolCall]
    appends go to the cell [curStep] points to, and [GetToolCalls] reads
    the copies kept in [Steps]. *)
Theorem GetToolCalls_after_operations (ops : list MemoryOp) (h : list Step) (n : nat) :
  GetToolCalls (fold_left applyOp ops {| heap := h; mem := NewMemory; modelCalls := n |})
  = [].
Proof. apply noToolCalls_GetToolCalls, noToolCalls_ops. constructor. Qed.

Lemma AddToolCall_open name args output err w p s :
  curStep (mem w) = Some p → heap w !! p = Some s →
  let w' := (AddToolCall name args output err w).2 in
  curStep (mem w') = Some p
  ∧ heap w' !! p
    = Some {| Type_ := Type_ s; Messages := Messages s;
              EndTimestamp := EndTimestamp s;
              ToolCalls := ToolCalls s ++ [recordOf (name, args, output, err)] |}.
Proof.
  intros Hcur Hp. unfold AddToolCall. rewrite Hcur. simpl. split; [done|].
  rewrite list_lookup_alter_eq, Hp. done.
Qed.

Lemma addToolCalls_open calls : ∀ w p s,
  curStep (mem w) = Some p → heap w !! p = Some s →
  curStep (mem (addToolCalls calls w)) = Some p
  ∧ heap (addToolCalls calls w) !! p
    = Some {| Type_ := Type_ s; Messages := Messages s;
              EndTimestamp := EndTimestamp s;
              ToolCalls := ToolCalls s ++ (recordOf <$> calls) |}.
Proof.
  induction calls as [|[[[name args] output] err] calls IH]; intros w p s Hcur Hp.
  - simpl. rewrite app_nil_r. by destruct s.
  - destruct (AddToolCall_open name args output err w p s Hcur Hp) as [Hc Hh].
    change (addToolCalls ((name, args, output, err) :: calls) w)
      with (addToolCalls calls (AddToolCall name args output err w).2).
    destruct (IH _ p _ Hc Hh) as [Hc' Hh']. split; [done|].
    rewrite Hh'. simpl. by rewrite <- app_assoc.
Qed.

(** X3.  The records of the tool calls made while a step is open are in
    the cell of that step, the one the pointer returned by [Add...Step]
    points to, in the order of the calls, each with the name, the
    arguments, the output and the text of the error it was made with (the
    empty text when there is no error); the step stays the current one. *)
Theorem tool_calls_in_open_step (k : StepKind) (messages : list models.Message)
    (calls : list (string * gmap string any * any * error)) (w : World) :
  let p := (addStep k messages w).1 in
  let w' := addToolCalls calls (addStep k messages w).2 in
  deref w' p
  = Some {| Type_ := kindName k; Messages := messages; EndTimestamp := false;
            ToolCalls := recordOf <$> calls |}
  ∧ curStep (mem w') = Some p.
Proof.
  intros p w'.
  destruct (addToolCalls_open calls (addStep k messages w).2 p (stepOf k messages))
    as [Hc Hh].
  - by destruct k.
  - subst p. destruct k; simpl; by rewrite lookup_app_r, Nat.sub_diag.
  - by split.
Qed.

(** X4.  [CompleteCurrentStep] leaves no step open, keeps the list of
    steps, and stamps the end time in the cell of the step that was open;
    completing again changes nothing, and a tool call made when no step
    is open returns nil and changes nothing. *)
Theorem CompleteCurrentStep_closes (w : World) :
  let w' := CompleteCurrentStep w in
  curStep (mem w') = None
  ∧ GetSteps w' = GetSteps w
  ∧ CompleteCurrentStep w' = w'
  ∧ (∀ name args output err, AddToolCall name args output err w' = (None, w'))
  ∧ (∀ p, curStep (mem w) = Some p →
       EndTimestamp <$> deref w' p = (λ _, true) <$> deref w p).
Proof.
  intros w'. subst w'.
  assert (curStep (mem (CompleteCurrentStep w)) = None) as Hnone
    by apply curStep_CompleteCurrentStep.
  split_and!.
  - done.
  - apply Steps_CompleteCurrentStep.
  - unfold CompleteCurrentStep at 1. by rewrite Hnone.
  - intros. unfold AddToolCall. by rewrite Hnone.
  - intros p Hp. unfold CompleteCurrentStep, deref. rewrite Hp. simpl.
    rewrite list_lookup_alter_eq. by destruct (heap w !! p).
Qed.

End memory_more.


(* ===================================================================== *)
(** * Further properties of package tools *)
(* ===================================================================== *)

Module tools_more.
Import tools mocks tools_facts.

Lemma goTypeToJSONType_inl t jsonType :
  goTypeToJSONType t = inl jsonType → supportedKind (reflect.kind t) = true.
Proof. unfold goTypeToJSONType. by destruct (reflect.kind t). Qed.

(** The loop fails at the first parameter of a kind that is not
    supported. *)
Lemma schemaLoop_unsupported params : ∀ i properties required j t,
  params !! j = Some t →
  supportedKind (reflect.kind t) = false →
  (∀ k t', (k < j)%nat → params !! k = Some t' →
     supportedKind (reflect.kind t') = true) →
  schemaLoop i params properties required
  = inr ("unsupported type: " +:+ reflect.name t).
Proof.
  induction params as [|t0 params IH]; intros i properties required j t Hj Ht Hbefore;
    [done|].
  destruct j as [|j]; simplify_eq/=.
  - by rewrite goTypeToJSONType_unsupported.
  - destruct (goTypeToJSONType_supported t0) as [jsonType ->].
    { apply (Hbefore 0%nat); [lia|done]. }
    apply (IH _ _ _ j t); [done..|].
    intros k t' Hk Hl. apply (Hbefore (S k)); [lia|done].
Qed.

(** X5.  When a parameter of the function is of a kind that has no JSON
    type (a channel, a function, a pointer, an interface, a complex
    number), the schema is not built: [createSchemaFromFunction] fails
    with the error that names the type of the first such parameter, and
    [NewFunctionTool] fails at construction with that error wrapped. *)
Theorem schema_unsupported_parameter (fnType : reflect.FuncType) (j : nat)
    (t : reflect.Type_) :
  reflect.ins fnType !! j = Some t →
  supportedKind (reflect.kind t) = false →
  (∀ k t', (k < j)%nat → reflect.ins fnType !! k = Some t' →
     supportedKind (reflect.kind t') = true) →
  createSchemaFromFunction fnType = inr ("unsupported type: " +:+ reflect.name t)
  ∧ ∀ name description fn,
      reflect.typeOf fn = fnType → name ≠ EmptyString → description ≠ EmptyString →
      NewFunctionTool name description fn
      = inr ("failed to create schema: unsupported type: " +:+ reflect.name t).
Proof.
  intros Hj Ht Hbefore.
  assert (createSchemaFromFunction fnType
          = inr ("unsupported type: " +:+ reflect.name t)) as Hs.
  { unfold createSchemaFromFunction.
    by rewrite (schemaLoop_unsupported _ _ _ _ j t Hj Ht Hbefore). }
  split; [done|]. intros name description fn <- Hn Hd. unfold NewFunctionTool.
  rewrite !bool_decide_eq_false_2, Hs by done. reflexivity.
Qed.

Lemma schema_unsupported_parameter_witness :
  NewFunctionTool "watch" "Watches a channel"
    {| reflect.typeOf := {| reflect.ins := [intType; chanType; chanType];
                            reflect.outs := [] |};
       reflect.Call := λ _, [] |}
  = inr "failed to create schema: unsupported type: chan int".
Proof.
  destruct (schema_unsupported_parameter
              {| reflect.ins := [intType; chanType; chanType]; reflect.outs := [] |}
              1%nat chanType eq_refl eq_refl) as [_ H].
  - intros [|k] t' Hk Ht'; [|lia]. simpl in Ht'. by inversion Ht'.
  - by apply H.
Defined.

(** The loop only writes the properties of its own parameters, and gives
    each the JSON type of its parameter. *)
Lemma schemaLoop_properties params : ∀ i properties required properties' required',
  schemaLoop i params properties required = inl (properties', required') →
  (∀ j, (j < i)%nat → properties' !! argName j = properties !! argName j)
  ∧ (∀ k t, params !! k = Some t →
       ∃ jsonType,
         goTypeToJSONType t = inl jsonType
         ∧ properties' !! argName (i + k)
           = Some {| pType := jsonType;
                     pDescription := "Parameter " +:+ pretty (i + k)%nat
                                     +:+ " of type " +:+ reflect.name t;
                     Enum := []; Default := nil |}).
Proof.
  induction params as [|t0 params IH];
    intros i properties required properties' required' Hloop; simpl in Hloop.
  - simplify_eq. split; [done|]. intros k t Hk. by destruct k.
  - destruct (goTypeToJSONType t0) as [jsonType|] eqn:Hj; [|done].
    destruct (IH _ _ _ _ _ Hloop) as [Hold Hnew]. split.
    + intros j Hji. rewrite Hold by lia. rewrite lookup_insert_ne; [done|].
      intros Heq. apply argName_inj in Heq. lia.
    + intros [|k] t Hk; simplify_eq/=.
      * exists jsonType. split; [done|]. rewrite Nat.add_0_r.
        rewrite Hold by lia. by rewrite lookup_insert_eq.
      * destruct (Hnew k t Hk) as (jt & ? & Hp). exists jt. split; [done|].
        by replace (i + S k)%nat with (S i + k)%nat by lia.
Qed.

(** X6.  In the schema derived from a function, the property of each
    parameter carries the JSON type of the kind of the parameter (string,
    boolean, integer, number, array or object) and the description
    [Parameter k of type T], with no enumeration and no default. *)
Theorem schema_property_types (fnType : reflect.FuncType) (schema : ToolSchema) :
  createSchemaFromFunction fnType = inl schema →
  ∀ k t, reflect.ins fnType !! k = Some t →
    ∃ jsonType,
      goTypeToJSONType t = inl jsonType
      ∧ Properties schema !! argName k
        = Some {| pType := jsonType;
                  pDescription := "Parameter " +:+ pretty k +:+ " of type "
                                  +:+ reflect.name t;
                  Enum := []; Default := nil |}.
Proof.
  unfold createSchemaFromFunction. intros Hs k t Hk.
  destruct (schemaLoop 0 (reflect.ins fnType) ∅ []) as [[properties required]|] eqn:Hloop;
    [|done].
  simplify_eq. simpl.
  destruct (schemaLoop_properties _ _ _ _ _ _ Hloop) as [_ Hnew].
  apply (Hnew k t Hk).
Qed.

Lemma schema_property_types_witness :
  match createSchemaFromFunction (reflect.typeOf addFn) with
  | inl schema => pType <$> Properties schema !! "arg1"
  | inr _ => None
  end = Some "integer".
Proof.
  destruct (createSchemaFromFunction (reflect.typeOf addFn)) as [schema|] eqn:Hs;
    [|vm_compute in Hs; discriminate].
  destruct (schema_property_types (reflect.typeOf addFn) schema Hs 1%nat intType eq_refl)
    as (jsonType & Hj & Hp).
  change (argName 1) with "arg1" in Hp. rewrite Hp. simpl.
  inversion Hj. reflexivity.
Defined.

Lemma prepareLoop_ext rt params : ∀ i args args',
  (∀ k, (k < length params)%nat →
     args !! argName (i + k) = args' !! argName (i + k)) →
  prepareLoop rt i params args = prepareLoop rt i params args'.
Proof.
  induction params as [|t params IH]; intros i args args' H; simpl; [done|].
  pose proof (H 0%nat ltac:(simpl; lia)) as H0. rewrite Nat.add_0_r in H0.
  rewrite <- H0. rewrite (IH (S i) args args'); [done|].
  intros k Hk. replace (S i + k)%nat with (i + S k)%nat by lia.
  apply H. simpl. lia.
Qed.

(** X7.  [Execute] reads the argument mapping at the keys [arg0], ...,
    [arg(N-1)] only: two mappings that agree on these keys give the same
    result and the same failure, whatever other keys they hold. *)
Theorem Execute_reads_declared_keys (rt : reflect.Runtime) (t : FunctionTool)
    (args args' : gmap string any) :
  (∀ k, (k < reflect.NumIn (reflect.typeOf (fn t)))%nat →
     args !! argName k = args' !! argName k) →
  FunctionTool_Execute rt t args = FunctionTool_Execute rt t args'.
Proof.
  intros H. unfold FunctionTool_Execute, prepareArguments.
  by rewrite (prepareLoop_ext rt _ 0 args args' H).
Qed.

Lemma Execute_reads_declared_keys_witness :
  FunctionTool_Execute testRuntime (toolOf "add" addFn)
    {[ "arg0" := AInt 5; "arg1" := AInt 7; "verbose" := ABool true ]}
  = FunctionTool_Execute testRuntime (toolOf "add" addFn)
      {[ "arg0" := AInt 5; "arg1" := AInt 7 ]}.
Proof.
  apply Execute_reads_declared_keys.
  intros [|[|k]] Hk; [vm_compute; reflexivity..|].
  exfalso. revert Hk. unfold reflect.NumIn. simpl. lia.
Defined.

End tools_more.


(* ===================================================================== *)
(** * Further properties of package agents: construction *)
(* ===================================================================== *)

Module construction_facts.
Import memory agents mocks.

Lemma providedOption_fails opt a err :
  providedOption opt → opt a = inr err → err = "maxSteps must be greater than 0".
Proof.
  intros [n| | |]; simpl; try done. unfold WithMaxSteps.
  case_bool_decide; [|done]. by intros [= <-].
Qed.

Lemma applyOptions_bad_budget opts : ∀ agent,
  Forall providedOption opts → asksBadBudget opts →
  applyOptions opts agent
  = inr "error applying option: maxSteps must be greater than 0".
Proof.
  unfold asksBadBudget.
  induction opts as [|opt opts IH]; intros agent Hall Hbad; [by inversion Hbad|].
  inversion Hall as [|?? Hopt Hrest]; subst. simpl.
  destruct (opt agent) as [agent'|err] eqn:Ho.
  - apply IH; [done|]. inversion Hbad as [?? (n & Hn & ->)|]; subst; [|done].
    unfold WithMaxSteps in Ho. by rewrite bool_decide_eq_true_2 in Ho.
  - by rewrite (providedOption_fails opt agent err Hopt Ho).
Qed.

Lemma checkOptions_bad_budget opts agent :
  Forall providedOption opts → asksBadBudget opts →
  checkOptions opts agent
  = Some "error applying option: maxSteps must be greater than 0".
Proof.
  unfold asksBadBudget.
  induction opts as [|opt opts IH]; intros Hall Hbad; [by inversion Hbad|].
  inversion Hall as [|?? Hopt Hrest]; subst. simpl.
  match goal with |- context [opt ?b] => destruct (opt b) as [agent'|err] eqn:Ho end.
  - apply IH; [done|]. inversion Hbad as [?? (n & Hn & ->)|]; subst; [|done].
    unfold WithMaxSteps in Ho. by rewrite bool_decide_eq_true_2 in Ho.
  - by rewrite (providedOption_fails opt _ err Hopt Ho).
Qed.

(** X8.  The three constructors fail fast: with an empty tool set they
    return the error [at least one tool is required], whatever the model
    and the options; with tools and a nil model, [model is required]; and
    with tools, a model and options of the package among which a budget
    that is not positive is asked for, the error of [WithMaxSteps],
    wrapped. *)
Theorem constructors_validate :
  (∀ model opts,
     NewBaseAgent [] model opts = inr "at least one tool is required"
     ∧ NewToolCallingAgent [] model opts = inr "at least one tool is required"
     ∧ NewCodeAgent [] model opts = inr "at least one tool is required")
  ∧ (∀ tool tools opts,
       NewBaseAgent (tool :: tools) None opts = inr "model is required"
       ∧ NewToolCallingAgent (tool :: tools) None opts = inr "model is required"
       ∧ NewCodeAgent (tool :: tools) None opts = inr "model is required")
  ∧ (∀ tool tools model opts,
       Forall providedOption opts → asksBadBudget opts →
       NewBaseAgent (tool :: tools) (Some model) opts
       = inr "error applying option: maxSteps must be greater than 0"
       ∧ NewToolCallingAgent (tool :: tools) (Some model) opts
         = inr "error applying option: maxSteps must be greater than 0"
       ∧ NewCodeAgent (tool :: tools) (Some model) opts
         = inr "error applying option: maxSteps must be greater than 0").
Proof.
  split_and!.
  - done.
  - done.
  - intros tool tools model opts Hall Hbad.
    assert (NewBaseAgent (tool :: tools) (Some model) opts
            = inr "error applying option: maxSteps must be greater than 0") as Hb.
    { unfold NewBaseAgent. simpl. by apply applyOptions_bad_budget. }
    split_and!; [done| |].
    + unfold NewToolCallingAgent. simpl.
      by rewrite checkOptions_bad_budget.
    + unfold NewCodeAgent. by rewrite Hb.
Qed.

(** X9.  [NewToolCallingAgent] keeps nothing of the options it is given:
    when it succeeds, the agent has the budget 20, the default system
    prompt, the name [ToolCallingAgent] and the default description,
    whatever the options were. *)
Theorem NewToolCallingAgent_ignores_options (tools : list tools.Tool)
    (model : models.Model) (opts : list Option) (a : ToolCallingAgent) :
  NewToolCallingAgent tools (Some model) opts = inl a →
  a = {| tca_tools := tools; tca_model := model; tca_maxSteps := 20;
         tca_systemPrompt := defaultSystemPrompt;
         tca_name := "ToolCallingAgent";
         tca_description :=
           "An agent specialized in calling tools and handling their output" |}.
Proof.
  unfold NewToolCallingAgent. case_bool_decide; [done|].
  destruct (checkOptions opts _); [done|]. by intros [= <-].
Qed.

Lemma NewToolCallingAgent_ignores_options_witness :
  NewToolCallingAgent [test_tool] (Some (MockModel "hello" None))
    [WithName "Custom"; WithMaxSteps 3; WithSystemPrompt "Be brief."]
  = inl (toolCallingAgent test_tool "hello").
Proof.
  destruct (NewToolCallingAgent [test_tool] (Some (MockModel "hello" None))
              [WithName "Custom"; WithMaxSteps 3; WithSystemPrompt "Be brief."])
    as [a|err] eqn:H; [|vm_compute in H; discriminate].
  by rewrite (NewToolCallingAgent_ignores_options _ _ _ a H).
Defined.

Lemma applyOptions_provided opts : ∀ agent a,
  Forall providedOption opts → applyOptions opts agent = inl a →
  tools a = tools agent ∧ model a = model agent ∧ stepper a = stepper agent
  ∧ (0 < maxSteps agent → 0 < maxSteps a)
  ∧ (∀ n opts', opts = opts' ++ [WithMaxSteps n] → maxSteps a = n)
  ∧ (∀ n opts', opts = opts' ++ [WithName n] → name a = n)
  ∧ (∀ p opts', opts = opts' ++ [WithSystemPrompt p] → systemPrompt a = p).
Proof.
  induction opts as [|opt opts IH]; intros agent a Hall Happ; simpl in Happ.
  - simplify_eq. split_and!; try done; by intros ? [|??] ?.
  - inversion Hall as [|?? Hopt Hrest]; subst.
    destruct (opt agent) as [agent'|] eqn:Ho; [|done].
    destruct (IH agent' a Hrest Happ) as (Ht & Hm & Hs & Hpos & Hmax & Hname & Hprompt).
    assert (tools agent' = tools agent ∧ model agent' = model agent
            ∧ stepper agent' = stepper agent
            ∧ (0 < maxSteps agent → 0 < maxSteps agent')) as (Ht' & Hm' & Hs' & Hpos').
    { destruct Hopt;
        unfold WithMaxSteps, WithSystemPrompt, WithName, WithDescription in Ho;
        try case_bool_decide; simplify_eq; simpl; split_and!; try done; lia. }
    split_and!; try congruence.
    + auto.
    + intros n [|o opts'] Heq; simplify_eq/=; [|by eapply Hmax].
      unfold WithMaxSteps in Ho. by case_bool_decide; simplify_eq.
    + intros n [|o opts'] Heq; simplify_eq/=; [|by eapply Hname].
      unfold WithName in Ho. by simplify_eq.
    + intros q [|o opts'] Heq; simplify_eq/=; [|by eapply Hprompt].
      unfold WithSystemPrompt in Ho. by simplify_eq.
Qed.

Lemma NewBaseAgent_provided (ts : list tools.Tool) (m : models.Model)
    (opts : list Option) (a : BaseAgent) :
  Forall providedOption opts →
  NewBaseAgent ts (Some m) opts = inl a →
  stepper a = None ∧ 0 < maxSteps a.
Proof.
  intros Hall. unfold NewBaseAgent. case_bool_decide; [done|]. intros Happ.
  destruct (applyOptions_provided _ _ _ Hall Happ) as (_ & _ & Hs & Hpos & _).
  split; [done|]. by apply Hpos.
Qed.

(** X10.  [NewBaseAgent] applies the options of the package in order to
    the agent it builds: the agent has the tools and the model given, a
    positive budget and no step strategy, and an option that comes last
    decides its field: the budget for [WithMaxSteps], the name for
    [WithName], the system prompt for [WithSystemPrompt]. *)
Theorem NewBaseAgent_applies_options (ts : list tools.Tool) (m : models.Model)
    (opts : list Option) (a : BaseAgent) :
  Forall providedOption opts →
  NewBaseAgent ts (Some m) opts = inl a →
  tools a = ts ∧ model a = m ∧ stepper a = None ∧ 0 < maxSteps a
  ∧ (∀ n opts', opts = opts' ++ [WithMaxSteps n] → maxSteps a = n)
  ∧ (∀ n opts', opts = opts' ++ [WithName n] → name a = n)
  ∧ (∀ p opts', opts = opts' ++ [WithSystemPrompt p] → systemPrompt a = p).
Proof.
  intros Hall. unfold NewBaseAgent. case_bool_decide; [done|]. intros Happ.
  destruct (applyOptions_provided _ _ _ Hall Happ)
    as (Ht & Hm & Hs & Hpos & Hmax & Hname & Hprompt).
  split_and!; try done. by apply Hpos.
Qed.

Lemma NewBaseAgent_applies_options_witness :
  ∃ a,
    NewBaseAgent [test_tool] (Some (MockModel "hello" None))
      [WithName "CustomAgent"; WithMaxSteps 10] = inl a
    ∧ name a = "CustomAgent" ∧ maxSteps a = 10.
Proof.
  eexists. split; [reflexivity|].
  destruct (NewBaseAgent_applies_options [test_tool] (MockModel "hello" None)
              [WithName "CustomAgent"; WithMaxSteps 10] _
              ltac:(repeat constructor) eq_refl)
    as (_ & _ & _ & _ & Hmax & _ & _).
  split; [reflexivity|]. apply (Hmax 10 [WithName "CustomAgent"] eq_refl).
Defined.

End construction_facts.

(* ===================================================================== *)
(** * Further properties of package agents: the run *)
(* ===================================================================== *)

Module run_facts.
Import memory agents mocks memory_facts loop_facts parser_facts construction_facts.

Lemma modelCalls_Complete w : modelCalls (CompleteCurrentStep w) = modelCalls w.
Proof. unfold CompleteCurrentStep. by destruct (curStep (mem w)). Qed.

Lemma modelCalls_executeAndAddResToMem tools step toolName args w :
  modelCalls (executeAndAddResToMem tools step toolName args w).2 = modelCalls w.
Proof.
  unfold executeAndAddResToMem, executeToolCall.
  destruct (findTool tools toolName) as [tool|]; [|done].
  destruct (tools.Execute tool args) as [result [e|]]; simpl;
    unfold AddToolCall; by destruct (curStep (mem w)).
Qed.

Lemma modelCalls_ToolCallingAgent_Step a step w :
  modelCalls (ToolCallingAgent_Step a step w).2 = S (modelCalls w).
Proof.
  unfold ToolCallingAgent_Step.
  destruct (models.GenerateWithTools _ _ _ _) as [response|]; [|done].
  destruct (extractToolCall response) as [[toolName args] [e|]]; [done|].
  case_bool_decide; [done|]. by rewrite modelCalls_executeAndAddResToMem.
Qed.

(** The steps the loop adds, and the calls it makes to the model, for a
    strategy that leaves the memory alone and calls the model once. *)
Lemma runLoop_transcript systemPrompt tools (Step : Stepper) task :
  (∀ p w, mem (Step p w).2 = mem w) →
  (∀ p w, modelCalls (Step p w).2 = S (modelCalls w)) →
  ∀ n w, curStep (mem w) = None →
    ∃ k, (k ≤ n)%nat ∧ ((0 < n)%nat → (1 ≤ k)%nat)
      ∧ Type_ <$> Steps (mem (runLoop systemPrompt tools Step task n w).2)
        = (Type_ <$> Steps (mem w)) ++ replicate k "action"
      ∧ curStep (mem (runLoop systemPrompt tools Step task n w).2) = None
      ∧ modelCalls (runLoop systemPrompt tools Step task n w).2
        = (modelCalls w + k)%nat.
Proof.
  intros Hmem Hcalls. induction n as [|n IH]; intros w Hcur.
  - exists 0%nat. simpl. rewrite app_nil_r. split_and!; try done; lia.
  - simpl. set (w1 := {| heap := _; mem := _; modelCalls := _ |}).
    pose proof (Hmem (length (heap w)) w1) as Hm.
    pose proof (Hcalls (length (heap w)) w1) as Hc.
    destruct (Step (length (heap w)) w1) as [[result err] w2]. simpl in Hm, Hc.
    assert (Type_ <$> Steps (mem (CompleteCurrentStep w2))
            = (Type_ <$> Steps (mem w)) ++ ["action"]) as Hsteps.
    { rewrite Steps_CompleteCurrentStep, Hm. simpl. by rewrite fmap_app. }
    assert (modelCalls (CompleteCurrentStep w2) = (modelCalls w + 1)%nat) as Hcnt.
    { rewrite modelCalls_Complete, Hc. simpl. lia. }
    assert (∃ k, (k ≤ S n)%nat ∧ (1 ≤ k)%nat
              ∧ Type_ <$> Steps (mem (CompleteCurrentStep w2))
                = (Type_ <$> Steps (mem w)) ++ replicate k "action"
              ∧ curStep (mem (CompleteCurrentStep w2)) = None
              ∧ modelCalls (CompleteCurrentStep w2) = (modelCalls w + k)%nat) as Hone.
    { exists 1%nat. split_and!; try done; try lia. apply curStep_CompleteCurrentStep. }
    destruct err as [e|].
    { destruct Hone as (k & ? & ? & ? & ? & ?). exists k. by split_and!. }
    destruct (is_nil result); simpl.
    2:{ destruct Hone as (k & ? & ? & ? & ? & ?). exists k. by split_and!. }
    destruct (IH (CompleteCurrentStep w2) (curStep_CompleteCurrentStep _))
      as (k & Hk & _ & Hs & Hcur' & Hcalls').
    exists (S k). split_and!; try done; try lia.
    rewrite Hs, Hsteps, <- app_assoc. done.
Qed.

(** X11.  A run of the tool-calling agent leaves in the memory the
    system-prompt step, the task step and then one action step for each
    iteration made, at least one when the budget is positive and at most
    as many as the budget; no step is left open; whatever the memory held
    before is gone; and the model has been called once for each action
    step. *)
Theorem ToolCallingAgent_Run_transcript (a : ToolCallingAgent) (task : string)
    (w : World) :
  ∃ k, (k ≤ Z.to_nat (tca_maxSteps a))%nat
    ∧ (0 < tca_maxSteps a → (1 ≤ k)%nat)
    ∧ Type_ <$> GetSteps (ToolCallingAgent_Run a task w).2
      = "system_prompt" :: "task" :: replicate k "action"
    ∧ curStep (mem (ToolCallingAgent_Run a task w).2) = None
    ∧ modelCalls (ToolCallingAgent_Run a task w).2 = (modelCalls w + k)%nat.
Proof.
  unfold ToolCallingAgent_Run, run, GetSteps.
  destruct (runLoop_transcript (tca_systemPrompt a) (tca_tools a)
              (ToolCallingAgent_Step a) task
              (mem_ToolCallingAgent_Step a) (modelCalls_ToolCallingAgent_Step a)
              (Z.to_nat (tca_maxSteps a))
              (startRun (tca_systemPrompt a) task w) eq_refl)
    as (k & Hk & Hpos & Hs & Hcur & Hcalls).
  exists k.
  destruct (runLoop _ _ _ _ _ _) as [[finalAnswer lastError] w'].
  assert (∀ (b : bool) (x y : any * error),
            (if b then (x, w') else (y, w')).2 = w') as Hif by by intros [].
  rewrite Hif. simpl in *. split_and!; try done. intros. apply Hpos. lia.
Qed.

(** X12.  The budget of the shared loop: a base agent with a step
    strategy installed that never answers and never fails ends its run
    with the failure that names the budget it was configured with. *)
Theorem BaseAgent_Run_exhausts (a : BaseAgent) (s : Stepper) (task : string)
    (w : World) :
  (∀ p w, (s p w).1 = (nil, None)) →
  (BaseAgent_Run (SetStepper s a) task w).1
  = (nil, Some ("agent reached maximum number of steps (" +:+ pretty (maxSteps a)
                +:+ ") without finding an answer")).
Proof. intros Hs. unfold BaseAgent_Run. simpl. by apply run_exhausts. Qed.

Lemma BaseAgent_Run_exhausts_witness :
  ∃ a,
    NewBaseAgent [test_tool] (Some (MockModel "hello" None)) [WithMaxSteps 3] = inl a
    ∧ (BaseAgent_Run (SetStepper idleStepper a) "test task" world0).1
      = (nil, Some "agent reached maximum number of steps (3) without finding an answer").
Proof.
  eexists. split; [reflexivity|].
  rewrite BaseAgent_Run_exhausts; reflexivity.
Defined.

(** X13.  A code agent built by [NewCodeAgent] with options of the package
    has no step strategy installed, and its [Run] is the one of the base
    agent it embeds: the run fails at its first iteration with the error
    of [BaseAgent.Step], after the system-prompt, task and one action step
    have been recorded; [CodeAgent.Step] is not reached. *)
Theorem CodeAgent_Run_not_implemented (ts : list tools.Tool) (m : models.Model)
    (opts : list Option) (c : CodeAgent) (task : string) (w : World) :
  Forall providedOption opts →
  NewCodeAgent ts (Some m) opts = inl c →
  (CodeAgent_Run c task w).1
  = (nil, Some "Step method must be implemented by derived agents")
  ∧ Type_ <$> GetSteps (CodeAgent_Run c task w).2
    = ["system_prompt"; "task"; "action"]
  ∧ modelCalls (CodeAgent_Run c task w).2 = modelCalls w.
Proof.
  intros Hall. unfold NewCodeAgent.
  destruct (NewBaseAgent ts (Some m) opts) as [b|] eqn:Hb; [|done].
  destruct (NewBaseAgent_provided ts m opts b Hall Hb) as [Hstep Hpos].
  intros [= <-]. unfold CodeAgent_Run, BaseAgent_Run, run. simpl.
  rewrite Hstep.
  destruct (Z.to_nat (maxSteps b)) as [|n] eqn:Hn; [lia|].
  simpl. split_and!; reflexivity.
Qed.

Lemma CodeAgent_Run_not_implemented_witness :
  (CodeAgent_Run (codeAgent addBlock) "test task" world0).1
  = (nil, Some "Step method must be implemented by derived agents").
Proof.
  apply (CodeAgent_Run_not_implemented [add_tool] (MockModel addBlock None) []
           (codeAgent addBlock) "test task" world0);
    [constructor|reflexivity].
Defined.

(** A run stops at its first iteration when the strategy fails or
    answers there. *)
Lemma run_first_step systemPrompt tools maxSteps (Step : Stepper) task w
    result err w2 :
  0 < maxSteps →
  (let opened :=
     AddActionStep task
       (buildMessages systemPrompt tools (startRun systemPrompt task w))
       (startRun systemPrompt task w) in
   Step opened.1 opened.2 = (result, err, w2)) →
  (err ≠ None ∨ result ≠ nil) →
  run systemPrompt tools maxSteps Step task w
  = (if err is Some _ then nil else result, err, CompleteCurrentStep w2).
Proof.
  intros Hpos HStep Hstop. unfold run.
  destruct (Z.to_nat maxSteps) as [|n] eqn:Hn; [lia|].
  simpl in *. rewrite HStep. destruct err as [e|]; [done|].
  destruct Hstop as [|Hres]; [done|]. by destruct result.
Qed.

Lemma Steps_first_step systemPrompt tools task w w2 :
  mem w2
  = mem (AddActionStep task
           (buildMessages systemPrompt tools (startRun systemPrompt task w))
           (startRun systemPrompt task w)).2 →
  Type_ <$> GetSteps (CompleteCurrentStep w2) = ["system_prompt"; "task"; "action"].
Proof.
  intros Hmem. unfold GetSteps. by rewrite Steps_CompleteCurrentStep, Hmem.
Qed.

(** X14.  When the budget is positive and the model answers the first
    call with a text that holds no fence, the run of the tool-calling
    agent ends after one iteration and reports that very text as the
    final answer, with no failure; the memory then holds the
    system-prompt step, the task step and one action step. *)
Theorem ToolCallingAgent_Run_final_answer (a : ToolCallingAgent) (task : string)
    (w : World) (response : string) :
  0 < tca_maxSteps a →
  (∀ messages decls,
     models.GenerateWithTools (tca_model a) (modelCalls w) messages decls
     = inl response) →
  Index response "```" = None →
  (ToolCallingAgent_Run a task w).1 = (AString response, None)
  ∧ Type_ <$> GetSteps (ToolCallingAgent_Run a task w).2
    = ["system_prompt"; "task"; "action"].
Proof.
  intros Hpos Hmodel Hfence. unfold ToolCallingAgent_Run.
  erewrite run_first_step; [|done|..].
  2:{ simpl. unfold ToolCallingAgent_Step.
      rewrite (Hmodel _ _ : models.GenerateWithTools _ (modelCalls _) _ _ = _).
      unfold extractToolCall. rewrite (extractJSON_no_fence _ Hfence). simpl.
      reflexivity. }
  2:{ right; discriminate. }
  split; [done|].
  apply (Steps_first_step (tca_systemPrompt a) (tca_tools a) task w). reflexivity.
Qed.

Lemma ToolCallingAgent_Run_final_answer_witness :
  (ToolCallingAgent_Run (toolCallingAgent test_tool "This is a final answer")
     "test task" world0).1
  = (AString "This is a final answer", None).
Proof.
  apply (ToolCallingAgent_Run_final_answer
           (toolCallingAgent test_tool "This is a final answer") "test task" world0
           "This is a final answer"); [done|reflexivity|reflexivity].
Defined.

(** X15.  When the budget is positive and the first call to the model
    fails, the run of the tool-calling agent ends after one iteration and
    reports the failure of the model, wrapped, and no answer; nothing is
    retried. *)
Theorem ToolCallingAgent_Run_model_failure (a : ToolCallingAgent) (task : string)
    (w : World) (err : string) :
  0 < tca_maxSteps a →
  (∀ messages decls,
     models.GenerateWithTools (tca_model a) (modelCalls w) messages decls = inr err) →
  (ToolCallingAgent_Run a task w).1
  = (nil, Some (wrap "failed to generate response" err))
  ∧ Type_ <$> GetSteps (ToolCallingAgent_Run a task w).2
    = ["system_prompt"; "task"; "action"]
  ∧ modelCalls (ToolCallingAgent_Run a task w).2 = S (modelCalls w).
Proof.
  intros Hpos Hmodel. unfold ToolCallingAgent_Run.
  erewrite run_first_step; [|done|..].
  2:{ simpl. unfold ToolCallingAgent_Step.
      rewrite (Hmodel _ _ : models.GenerateWithTools _ (modelCalls _) _ _ = _).
      reflexivity. }
  2:{ left; discriminate. }
  split_and!; [done| |].
  - apply (Steps_first_step (tca_systemPrompt a) (tca_tools a) task w).
    reflexivity.
  - apply modelCalls_Complete.
Qed.

Lemma ToolCallingAgent_Run_model_failure_witness :
  (ToolCallingAgent_Run
     {| tca_tools := [test_tool];
        tca_model := MockModel EmptyString (Some "connection refused");
        tca_maxSteps := 20; tca_systemPrompt := defaultSystemPrompt;
        tca_name := "ToolCallingAgent"; tca_description := "An agent" |}
     "test task" world0).1
  = (nil, Some "failed to generate response: connection refused").
Proof.
  apply (ToolCallingAgent_Run_model_failure _ "test task" world0 "connection refused");
    [done|reflexivity].
Defined.

End run_facts.

(* ===================================================================== *)
(** * Further properties of package agents: dispatch and parsing *)
(* ===================================================================== *)

Module dispatch_facts.
Import memory agents mocks memory_facts loop_facts parser_facts.

Lemma findTool_none (tools : list tools.Tool) (name : string) :
  Forall (λ t, tools.Name t ≠ name) tools →
  findTool tools name = inr ("tool not found: " +:+ name).
Proof.
  induction 1 as [|t tools Ht _ IH]; simpl; [done|].
  by rewrite bool_decide_eq_false_2.
Qed.

Lemma findTool_some (tools : list tools.Tool) (name : string) :
  existsb (λ tool, bool_decide (tools.Name tool = name)) tools = true →
  ∃ tool, findTool tools name = inl tool.
Proof.
  induction tools as [|t tools IH]; simpl; [done|].
  case_bool_decide; [by eexists|]. apply IH.
Qed.

(** X16.  [findTool] returns the first tool of the agent whose name is the
    one asked for, and fails with [tool not found] and that name exactly
    when no tool of the agent has it. *)
Theorem findTool_first_match (tools : list tools.Tool) (name : string) :
  match findTool tools name with
  | inl tool =>
      tools.Name tool = name
      ∧ ∃ before after,
          tools = before ++ tool :: after
          ∧ Forall (λ t, tools.Name t ≠ name) before
  | inr err =>
      err = "tool not found: " +:+ name
      ∧ Forall (λ t, tools.Name t ≠ name) tools
  end.
Proof.
  induction tools as [|t tools IH]; simpl.
  - by split.
  - case_bool_decide as Ht.
    + split; [done|]. exists [], tools. by split.
    + destruct (findTool tools name) as [tool|err].
      * destruct IH as (Hn & before & after & -> & Hb). split; [done|].
        exists (t :: before), after. split; [done|]. by constructor.
      * destruct IH as [-> Hall]. split; [done|]. by constructor.
Qed.

(** ** A response that starts with a fenced block *)










(** X18.  A step of the direct strategy on a response that starts with the
    fenced call of [test_tool] when no tool of the agent has this name:
    the step fails with [tool not found], nothing is executed and nothing
    is recorded; only the response of the model has been appended to the
    messages of the step. *)
Theorem ToolCallingAgent_Step_unknown_tool (a : ToolCallingAgent) (step : nat)
    (w : World) (post : string) :
  models.GenerateWithTools (tca_model a) (modelCalls w) (stepMessages step w)
    (buildToolsSchema (tca_tools a)) = inl (callBlock +:+ post) →
  Forall (λ t, tools.Name t ≠ "test_tool") (tca_tools a) →
  ToolCallingAgent_Step a step w
  = (nil, Some "failed to execute tool call: tool not found: test_tool",
     appendMessage step
       {| models.Role := models.RoleAssistant;
          models.Content := callBlock +:+ post;
          models.Name := EmptyString |} (tick w)).
Proof.
  intros Hmodel Hnone. unfold ToolCallingAgent_Step.
  rewrite Hmodel, extractToolCall_leading_block.
  rewrite bool_decide_eq_false_2 by done.
  unfold executeAndAddResToMem, executeToolCall.
  by rewrite (findTool_none _ _ Hnone).
Qed.

Lemma ToolCallingAgent_Step_unknown_tool_witness :
  (ToolCallingAgent_Step (toolCallingAgent add_tool callBlock)
     0%nat (AddActionStep "test task" [] world0).2).1
  = (nil, Some "failed to execute tool call: tool not found: test_tool").
Proof.
  rewrite (ToolCallingAgent_Step_unknown_tool (toolCallingAgent add_tool callBlock)
             0%nat (AddActionStep "test task" [] world0).2 EmptyString).
  - reflexivity.
  - reflexivity.
  - repeat constructor. discriminate.
Defined.

Lemma fold_left_filter_app {A} (P : A → bool) (l : list A) : ∀ acc,
  fold_left (λ acc x, if P x then acc else acc ++ [x]) l acc
  = acc ++ filter (λ x, P x = false) l.
Proof.
  induction l as [|x l IH]; intros acc; simpl.
  - by rewrite app_nil_r.
  - rewrite IH, filter_cons. destruct (P x) eqn:HP.
    + by rewrite decide_False by done.
    + rewrite decide_True by done. by rewrite <- app_assoc.
Qed.

(** X19.  The prompt [buildMessages] assembles is the system message that
    holds the system prompt, then, when the agent has tools, the system
    message that holds the description of the tools, then the messages of
    the memory whose role is not [system], in their order. *)
Theorem buildMessages_shape (systemPrompt : string) (tools : list tools.Tool)
    (w : World) :
  buildMessages systemPrompt tools w
  = systemMessage systemPrompt
    :: (if tools is [] then [] else [systemMessage (buildToolsDescription tools)])
    ++ filter (λ msg, models.Role msg ≠ models.RoleSystem) (GetMessages w).
Proof.
  unfold buildMessages.
  rewrite (fold_left_filter_app
             (λ msg, bool_decide (models.Role msg = models.RoleSystem))).
  assert (filter (λ x, bool_decide (models.Role x = models.RoleSystem) = false)
            (GetMessages w)
          = filter (λ msg, models.Role msg ≠ models.RoleSystem) (GetMessages w)) as ->.
  { apply list_filter_iff. intros msg. by rewrite bool_decide_eq_false. }
  destruct tools as [|t ts]; reflexivity.
Qed.

(** X20.  A call parsed from a code block names a registered tool:
    [extractToolCallFromCode] returns no error, and either no tool name
    or the name of a tool that [findTool] finds, so the dispatch of a call
    that comes from a code block does not fail with [tool not found]. *)
Theorem extractToolCallFromCode_registered (a : CodeAgent) (code : string) :
  (extractToolCallFromCode a code).2 = None
  ∧ ((extractToolCallFromCode a code).1.1 = EmptyString
     ∨ ∃ tool,
         findTool (tools (base a)) (extractToolCallFromCode a code).1.1 = inl tool).
Proof.
  unfold extractToolCallFromCode.
  destruct (regexp.find regexp.callAt code) as [[toolName argsStr]|]; [|by split; [|left]].
  destruct (existsb _ _) eqn:Hex; [|by split; [|left]].
  split; [done|]. right. simpl. by apply findTool_some.
Qed.

(** X21.  Text that holds no backquote, in front of a response, changes
    nothing to the code blocks [extractCodeBlocks] finds in it; and a
    response with no fence has no code block. *)
Theorem extractCodeBlocks_prefix (pre s : string) :
  Contains pre "`" = false →
  extractCodeBlocks (pre +:+ s) = extractCodeBlocks s
  ∧ (Index s "```" = None → extractCodeBlocks (pre +:+ s) = []).
Proof.
  intros Hpre. rewrite extractCodeBlocks_skip by done. split; [done|].
  apply extractCodeBlocks_no_fence.
Qed.

Lemma extractCodeBlocks_prefix_witness :
  extractCodeBlocks ("Here is the code: " +:+ addBlock) = extractCodeBlocks addBlock.
Proof. apply extractCodeBlocks_prefix. reflexivity. Defined.

(** X22.  A step of either strategy writes to the cell of the step it is
    given and to nothing the views read: [GetSteps], [GetMessages] and
    [GetToolCalls] return after the step what they returned before it, so
    the response of the model and the result of the tool, appended to the
    messages of the step, are not in [GetMessages]. *)
Theorem Step_keeps_views (step : nat) (w : World) :
  (∀ a,
     GetSteps (ToolCallingAgent_Step a step w).2 = GetSteps w
     ∧ GetMessages (ToolCallingAgent_Step a step w).2 = GetMessages w
     ∧ GetToolCalls (ToolCallingAgent_Step a step w).2 = GetToolCalls w)
  ∧ (∀ a,
       GetSteps (CodeAgent_Step a step w).2 = GetSteps w
       ∧ GetMessages (CodeAgent_Step a step w).2 = GetMessages w
       ∧ GetToolCalls (CodeAgent_Step a step w).2 = GetToolCalls w).
Proof.
  split; intros a; unfold GetSteps, GetMessages, GetToolCalls;
    [rewrite mem_ToolCallingAgent_Step|rewrite mem_CodeAgent_Step]; done.
Qed.

End dispatch_facts.
